(** * multi001-v1: the sample, detect and publish loop of the MULTI001 node

    A shallow embedding of [multi001-v1.cpp] (humidity, temperature and tilt
    variant): the globals and the function statics of [loop()] become an
    explicit [State], one call of [loop()] becomes the function [loop], and
    everything the firmware obtains from its environment during one call
    (the clock, the broker, the GPIO levels, the AM2322 sensor) is collected
    in a [Tick].  Observable effects ([delay], [mqttClient.connect],
    [mqttClient.publish]) are appended to a trace kept in the state. *)

From Stdlib Require Import ZArith List String Bool Lia Permutation.
Import ListNotations.
Open Scope Z_scope.

(** ** Constants of the source *)

Definition GPIO_SW0 : Z := 14.
Definition GPIO_SW1 : Z := 15.
Definition GPIO_SW2 : Z := 16.
Definition GPIO_SW3 : Z := 17.

Definition MQTT_PUBLISH_SOFT_INTERVAL : Z := 3000.
Definition MQTT_PUBLISH_HARD_INTERVAL : Z := 30000.
Definition SENSOR_UNDEFINED_VALUE : Z := 999.

(** ** The C type [long] of the target (32 bits, two's complement)

    [millis()] returns an [unsigned long]; [loop()] stores it in a [long] and
    adds the intervals to it.  The conversion and the additions are taken
    modulo [2 ^ 32] into the range of [long], as the 32-bit target computes
    them, and are written out with that wrap-around. *)

Module Long.

Definition MIN : Z := - 2 ^ 31.
Definition MAX : Z := 2 ^ 31 - 1.

Definition wrap (z : Z) : Z := (z + 2 ^ 31) mod 2 ^ 32 - 2 ^ 31.

Definition add (a b : Z) : Z := wrap (a + b).

End Long.

(** ** Configuration record *)

Record MQTT_CONFIG := {
  servername : string;
  serverport : Z;
  username : string;
  password : string;
  topic : string;
  propertyname0 : string;
  propertyname1 : string;
  propertyname2 : string;
  propertyname3 : string
}.

Definition strlen (s : string) : nat := String.length s.

(** A C condition [if (n)] on an unsigned length. *)
Definition nonzero (n : nat) : bool := negb (Nat.eqb n 0).

(** ** Sample sets

    The six [CURRENT_*] globals form one [Samples] value and the six
    [PREVIOUS_*] globals another. *)

Record Samples := {
  HUMIDITY : Z;
  TEMPERATURE : Z;
  SW0 : Z;
  SW1 : Z;
  SW2 : Z;
  SW3 : Z
}.

Definition undefined_samples : Samples :=
  {| HUMIDITY := SENSOR_UNDEFINED_VALUE;
     TEMPERATURE := SENSOR_UNDEFINED_VALUE;
     SW0 := SENSOR_UNDEFINED_VALUE;
     SW1 := SENSOR_UNDEFINED_VALUE;
     SW2 := SENSOR_UNDEFINED_VALUE;
     SW3 := SENSOR_UNDEFINED_VALUE |}.

Definition set_HUMIDITY (v : Z) (s : Samples) : Samples :=
  {| HUMIDITY := v; TEMPERATURE := TEMPERATURE s;
     SW0 := SW0 s; SW1 := SW1 s; SW2 := SW2 s; SW3 := SW3 s |}.
Definition set_TEMPERATURE (v : Z) (s : Samples) : Samples :=
  {| HUMIDITY := HUMIDITY s; TEMPERATURE := v;
     SW0 := SW0 s; SW1 := SW1 s; SW2 := SW2 s; SW3 := SW3 s |}.
Definition set_SW0 (v : Z) (s : Samples) : Samples :=
  {| HUMIDITY := HUMIDITY s; TEMPERATURE := TEMPERATURE s;
     SW0 := v; SW1 := SW1 s; SW2 := SW2 s; SW3 := SW3 s |}.
Definition set_SW1 (v : Z) (s : Samples) : Samples :=
  {| HUMIDITY := HUMIDITY s; TEMPERATURE := TEMPERATURE s;
     SW0 := SW0 s; SW1 := v; SW2 := SW2 s; SW3 := SW3 s |}.
Definition set_SW2 (v : Z) (s : Samples) : Samples :=
  {| HUMIDITY := HUMIDITY s; TEMPERATURE := TEMPERATURE s;
     SW0 := SW0 s; SW1 := SW1 s; SW2 := v; SW3 := SW3 s |}.
Definition set_SW3 (v : Z) (s : Samples) : Samples :=
  {| HUMIDITY := HUMIDITY s; TEMPERATURE := TEMPERATURE s;
     SW0 := SW0 s; SW1 := SW1 s; SW2 := SW2 s; SW3 := v |}.

(** The four configurable switch channels and the six channels in all. *)

Inductive Switch := Sw0 | Sw1 | Sw2 | Sw3.

Inductive Channel := Humidity | Temperature | Tilt (s : Switch).

Definition propertyname (cfg : MQTT_CONFIG) (s : Switch) : string :=
  match s with
  | Sw0 => propertyname0 cfg
  | Sw1 => propertyname1 cfg
  | Sw2 => propertyname2 cfg
  | Sw3 => propertyname3 cfg
  end.

Definition switch_value (s : Switch) (v : Samples) : Z :=
  match s with
  | Sw0 => SW0 v
  | Sw1 => SW1 v
  | Sw2 => SW2 v
  | Sw3 => SW3 v
  end.

Definition channel_value (c : Channel) (v : Samples) : Z :=
  match c with
  | Humidity => HUMIDITY v
  | Temperature => TEMPERATURE v
  | Tilt s => switch_value s v
  end.

(** The pin macro that carries the name of each switch channel. *)
Definition own_pin (s : Switch) : Z :=
  match s with
  | Sw0 => GPIO_SW0
  | Sw1 => GPIO_SW1
  | Sw2 => GPIO_SW2
  | Sw3 => GPIO_SW3
  end.

(** ** The JSON document [jsonBuffer]

    A flat object of integer members in insertion order.  [jsonBuffer[k] = v]
    overwrites the member named [k] when there is one and appends a new
    member otherwise.  The document is a global and is never cleared. *)

Definition JsonDocument := list (string * Z).

Fixpoint json_set (k : string) (v : Z) (doc : JsonDocument) : JsonDocument :=
  match doc with
  | [] => [(k, v)]
  | (k', v') :: rest =>
      if String.eqb k' k then (k, v) :: rest else (k', v') :: json_set k v rest
  end.

Fixpoint json_get (k : string) (doc : JsonDocument) : option Z :=
  match doc with
  | [] => None
  | (k', v') :: rest => if String.eqb k' k then Some v' else json_get k rest
  end.

Definition json_keys (doc : JsonDocument) : list string := map fst doc.

(** ** Observable effects *)

(** A publish event records the clock value [now] that the call has read
    at its start (line 355), which is what the scheduler compares and which
    may lie well before the transmission when [connect_to_mqtt] has waited
    in between; and it records as [payload] the document handed to
    [serializeJson] (line 385).  The text sent is the serialization of that
    document as far as it fits the 128 bytes of [mqttStatusMessage]; the
    text itself is not built here. *)
Inductive Event :=
| Delay (ms : Z)
| MqttConnect (ok : bool)
| MqttPublish (now : Z) (to_topic : string) (payload : JsonDocument) (ok : bool).

(** ** Program state: the globals and the statics of [loop()] *)

Record State := {
  mqttPublishSoftDeadline : Z;
  mqttPublishHardDeadline : Z;
  CURRENT : Samples;
  PREVIOUS : Samples;
  jsonBuffer : JsonDocument;
  mqttClient_connected : bool;
  trace : list Event
}.

(** The state in which [setup()] leaves the node: the initialisers of the
    globals and statics, an empty document and no broker session. *)
Definition boot : State :=
  {| mqttPublishSoftDeadline := 0;
     mqttPublishHardDeadline := 0;
     CURRENT := undefined_samples;
     PREVIOUS := undefined_samples;
     jsonBuffer := [];
     mqttClient_connected := false;
     trace := [] |}.

Definition emit (e : Event) (st : State) : State :=
  {| mqttPublishSoftDeadline := mqttPublishSoftDeadline st;
     mqttPublishHardDeadline := mqttPublishHardDeadline st;
     CURRENT := CURRENT st;
     PREVIOUS := PREVIOUS st;
     jsonBuffer := jsonBuffer st;
     mqttClient_connected := mqttClient_connected st;
     trace := trace st ++ [e] |}.

Definition set_connected (b : bool) (st : State) : State :=
  {| mqttPublishSoftDeadline := mqttPublishSoftDeadline st;
     mqttPublishHardDeadline := mqttPublishHardDeadline st;
     CURRENT := CURRENT st;
     PREVIOUS := PREVIOUS st;
     jsonBuffer := jsonBuffer st;
     mqttClient_connected := b;
     trace := trace st |}.

(** ** What one call of [loop()] obtains from its environment *)

Record Tick := {
  (** value returned by [millis()] *)
  millis : Z;
  (** results of the successive [mqttClient.connect] calls *)
  connect_results : list bool;
  (** whether the session survives the housekeeping of [mqttClient.loop()] *)
  session_alive : bool;
  (** level returned by [digitalRead] for each pin *)
  digitalRead : Z -> Z;
  (** [None] when [AM2322.read()] is not [AM232X_OK], otherwise the rounded
      temperature and humidity *)
  AM2322_read : option (Z * Z);
  (** whether the transmission of [mqttClient.publish] goes through *)
  publish_sent : bool
}.

(** [long now = millis();] *)
Definition now_of (t : Tick) : Z := Long.wrap (millis t).

(** ** [connect_to_mqtt]

    [while (!mqttClient.connected()) { if (mqttClient.connect(..)) {} else
    delay(5000); }].  The server name, the credentials and the client id only
    label an attempt; its outcome comes from the broker and is taken from
    [results].  The loop has no bound of its own: it consumes connect results
    for as long as the session is down, and on a finite list of results that
    holds no success it has not returned ([None]). *)

Fixpoint connect_to_mqtt (results : list bool) (st : State) : option State :=
  if mqttClient_connected st then Some st
  else
    match results with
    | [] => None
    | true :: rest =>
        connect_to_mqtt rest (set_connected true (emit (MqttConnect true) st))
    | false :: rest =>
        connect_to_mqtt rest (emit (Delay 5000) (emit (MqttConnect false) st))
    end.

(** [mqttClient.loop()]: the housekeeping may find the session dropped. *)
Definition mqttClient_loop (alive : bool) (st : State) : State :=
  set_connected (mqttClient_connected st && alive) st.

(** ** Sampling: lines 366 to 376 *)

Definition read_sensors (cfg : MQTT_CONFIG) (t : Tick) (cur : Samples) : Samples :=
  let cur := if nonzero (strlen (propertyname0 cfg))
             then set_SW0 (digitalRead t GPIO_SW0) cur else cur in
  let cur := if nonzero (strlen (propertyname1 cfg))
             then set_SW1 (digitalRead t GPIO_SW1) cur else cur in
  let cur := if nonzero (strlen (propertyname2 cfg))
             then set_SW2 (digitalRead t GPIO_SW1) cur else cur in
  let cur := if nonzero (strlen (propertyname3 cfg))
             then set_SW3 (digitalRead t GPIO_SW3) cur else cur in
  match AM2322_read t with
  | Some (temperature, humidity) =>
      set_HUMIDITY humidity (set_TEMPERATURE temperature cur)
  | None =>
      set_HUMIDITY SENSOR_UNDEFINED_VALUE
        (set_TEMPERATURE SENSOR_UNDEFINED_VALUE cur)
  end.

(** ** The change test of line 378, without its deadline disjunct *)

Definition hasChanged (cur prev : Samples) : bool :=
  negb (HUMIDITY cur =? HUMIDITY prev)
  || negb (TEMPERATURE cur =? TEMPERATURE prev)
  || negb (SW0 cur =? SW0 prev)
  || negb (SW1 cur =? SW1 prev)
  || negb (SW2 cur =? SW2 prev)
  || negb (SW3 cur =? SW3 prev).

(** ** Filling the document: lines 379 to 384 *)

Definition fill_json (cfg : MQTT_CONFIG) (cur : Samples) (doc : JsonDocument)
  : JsonDocument :=
  let doc := json_set "humidity" (HUMIDITY cur) doc in
  let doc := json_set "temperature" (TEMPERATURE cur) doc in
  let doc := if nonzero (strlen (propertyname0 cfg))
             then json_set (propertyname0 cfg) (SW0 cur) doc else doc in
  let doc := if nonzero (strlen (propertyname1 cfg))
             then json_set (propertyname1 cfg) (SW1 cur) doc else doc in
  let doc := if nonzero (strlen (propertyname2 cfg))
             then json_set (propertyname2 cfg) (SW2 cur) doc else doc in
  let doc := if nonzero (strlen (propertyname3 cfg))
             then json_set (propertyname3 cfg) (SW3 cur) doc else doc in
  doc.

(** ** The scheduler: lines 364 to 404

    The result of [mqttClient.publish] is not looked at by the source; the
    model records it in the [MqttPublish] event and nowhere else.  The event
    carries [now], read at line 355 before [connect_to_mqtt] may have
    waited, and the document that line 385 serializes, not the text that
    [serializeJson] leaves in the 128 bytes of [mqttStatusMessage]. *)

Definition scheduler (cfg : MQTT_CONFIG) (t : Tick) (st : State) : State :=
  let now := now_of t in
  if mqttPublishSoftDeadline st <? now then
    let cur := read_sensors cfg t (CURRENT st) in
    if hasChanged cur (PREVIOUS st) || (mqttPublishHardDeadline st <? now) then
      let doc := fill_json cfg cur (jsonBuffer st) in
      let ok := mqttClient_connected st && publish_sent t in
      {| mqttPublishSoftDeadline := Long.add now MQTT_PUBLISH_SOFT_INTERVAL;
         mqttPublishHardDeadline := Long.add now MQTT_PUBLISH_HARD_INTERVAL;
         CURRENT := cur;
         PREVIOUS := cur;
         jsonBuffer := doc;
         mqttClient_connected := mqttClient_connected st;
         trace := trace st ++ [MqttPublish now (topic cfg) doc ok] |}
    else
      {| mqttPublishSoftDeadline := Long.add now MQTT_PUBLISH_SOFT_INTERVAL;
         mqttPublishHardDeadline := mqttPublishHardDeadline st;
         CURRENT := cur;
         PREVIOUS := PREVIOUS st;
         jsonBuffer := jsonBuffer st;
         mqttClient_connected := mqttClient_connected st;
         trace := trace st |}
  else st.

(** ** One call of [loop()]

    Lines 358 to 361 first: recover a lost session, then let the client do
    its housekeeping. *)

Definition service_connection (t : Tick) (st : State) : option State :=
  match (if mqttClient_connected st then Some st
         else connect_to_mqtt (connect_results t) st) with
  | None => None
  | Some st1 => Some (mqttClient_loop (session_alive t) st1)
  end.

Definition loop (cfg : MQTT_CONFIG) (t : Tick) (st : State) : option State :=
  match service_connection t st with
  | None => None
  | Some st1 => Some (scheduler cfg t st1)
  end.

(** Successive calls of [loop()], starting in [st]. *)
Fixpoint run (cfg : MQTT_CONFIG) (ticks : list Tick) (st : State) : option State :=
  match ticks with
  | [] => Some st
  | t :: rest =>
      match loop cfg t st with
      | None => None
      | Some st' => run cfg rest st'
      end
  end.

(** ** Vocabulary of the properties *)

(** The events one call of [loop()] has added to the trace. *)
Definition events_since (st st' : State) : list Event :=
  skipn (List.length (trace st)) (trace st').

Definition is_publish (e : Event) : bool :=
  match e with
  | MqttPublish _ _ _ _ => true
  | _ => false
  end.

(** Clock values of the publish events of a trace, oldest first. *)
Definition publish_times (tr : list Event) : list Z :=
  flat_map (fun e => match e with
                     | MqttPublish now _ _ _ => [now]
                     | _ => []
                     end) tr.

(** Durations of the [delay] calls of a trace, oldest first. *)
Definition backoff_waits (tr : list Event) : list Z :=
  flat_map (fun e => match e with
                     | Delay ms => [ms]
                     | _ => []
                     end) tr.

(** One failed connect attempt as the trace shows it. *)
Definition failed_attempt : list Event := [MqttConnect false; Delay 5000].

Definition channel_differs (c : Channel) (a b : Samples) : bool :=
  negb (channel_value c a =? channel_value c b).

(** The channels in the order in which line 378 compares them. *)
Definition channel_order : list Channel :=
  [Humidity; Temperature; Tilt Sw0; Tilt Sw1; Tilt Sw2; Tilt Sw3].

(** The change test taken over the channels in a given order. *)
Definition hasChanged_in_order (order : list Channel) (a b : Samples) : bool :=
  existsb (fun c => channel_differs c a b) order.

(** A clock value for which neither the conversion to [long] nor the two
    additions of [loop()] wrap. *)
Definition in_range (t : Tick) : Prop :=
  0 <= millis t <= Long.MAX - MQTT_PUBLISH_HARD_INTERVAL.

(** Every later element exceeds every earlier one by more than [d]. *)
Definition spaced (d : Z) (l : list Z) : Prop :=
  ForallOrdPairs (fun a b => d < b - a) l.

(** The built-in keys are not reused as the property name of a switch. *)
Definition builtin_keys_free (cfg : MQTT_CONFIG) : Prop :=
  forall s, propertyname cfg s <> "humidity"%string
            /\ propertyname cfg s <> "temperature"%string.

(** ** Concrete configurations and ticks used in the examples *)

Definition cfg_plain : MQTT_CONFIG :=
  {| servername := "broker"; serverport := 1883;
     username := "node"; password := "secret";
     topic := "MULTISENSOR-a1b2c3d4e5f6/status";
     propertyname0 := EmptyString; propertyname1 := EmptyString;
     propertyname2 := EmptyString; propertyname3 := EmptyString |}.

Definition cfg_tilt : MQTT_CONFIG :=
  {| servername := "broker"; serverport := 1883;
     username := "node"; password := "secret";
     topic := "MULTISENSOR-a1b2c3d4e5f6/status";
     propertyname0 := "door"; propertyname1 := "window";
     propertyname2 := "hatch"; propertyname3 := "lid" |}.

Definition cfg_clash : MQTT_CONFIG :=
  {| servername := "broker"; serverport := 1883;
     username := "node"; password := "secret";
     topic := "MULTISENSOR-a1b2c3d4e5f6/status";
     propertyname0 := "humidity"; propertyname1 := EmptyString;
     propertyname2 := EmptyString; propertyname3 := EmptyString |}.

Definition all_low : Z -> Z := fun _ => 0.
Definition all_high : Z -> Z := fun _ => 1.
Definition only_high (pin : Z) : Z -> Z := fun p => if p =? pin then 1 else 0.

(** A tick at clock value [ms] on a healthy broker link. *)
Definition tick_at (ms : Z) (pins : Z -> Z) (am : option (Z * Z)) : Tick :=
  {| millis := ms; connect_results := [true]; session_alive := true;
     digitalRead := pins; AM2322_read := am; publish_sent := true |}.

(** The same with a publish whose transmission fails. *)
Definition tick_unsent (ms : Z) (pins : Z -> Z) (am : option (Z * Z)) : Tick :=
  {| millis := ms; connect_results := [true]; session_alive := true;
     digitalRead := pins; AM2322_read := am; publish_sent := false |}.

(** [n] ticks, [step] milliseconds apart, the first at [start], all with the
    same sensor readings. *)
Fixpoint steady_ticks (n : nat) (start step : Z) (pins : Z -> Z)
  (am : option (Z * Z)) : list Tick :=
  match n with
  | O => []
  | S n' => tick_at start pins am :: steady_ticks n' (start + step) step pins am
  end.

(** Whether the scheduler, entered in [st], samples and then publishes:
    the two nested conditions of lines 364 and 378. *)
Definition due (cfg : MQTT_CONFIG) (t : Tick) (st : State) : bool :=
  (mqttPublishSoftDeadline st <? now_of t)
  && (hasChanged (read_sensors cfg t (CURRENT st)) (PREVIOUS st)
      || (mqttPublishHardDeadline st <? now_of t)).

(** The scheduler variables agree in two states. *)
Definition same_schedule (st st1 : State) : Prop :=
  mqttPublishSoftDeadline st1 = mqttPublishSoftDeadline st
  /\ mqttPublishHardDeadline st1 = mqttPublishHardDeadline st
  /\ CURRENT st1 = CURRENT st
  /\ PREVIOUS st1 = PREVIOUS st
  /\ jsonBuffer st1 = jsonBuffer st.

(** The same tick with another outcome of the AM2322 read. *)
Definition with_AM2322 (am : option (Z * Z)) (t : Tick) : Tick :=
  {| millis := millis t; connect_results := connect_results t;
     session_alive := session_alive t; digitalRead := digitalRead t;
     AM2322_read := am; publish_sent := publish_sent t |}.

(** All publish events of a trace satisfy [P] on their payload. *)
Definition payloads (P : JsonDocument -> Prop) (tr : list Event) : Prop :=
  forall now to_topic payload ok,
    In (MqttPublish now to_topic payload ok) tr -> P payload.

(** The keys the source ever stores in the document: the two built-in ones
    and the non-empty property names. *)
Definition allowed_key (cfg : MQTT_CONFIG) (k : string) : Prop :=
  k = "humidity"%string \/ k = "temperature"%string
  \/ exists s, propertyname cfg s = k /\ k <> EmptyString.



(** A document that begins with the two built-in members. *)
Definition builtin_first (doc : JsonDocument) : Prop :=
  exists h t rest,
    doc = ("humidity"%string, h) :: ("temperature"%string, t) :: rest.

(** ** [setup_wifi]

    [delay(10); WiFi.mode(WIFI_STA); WiFi.begin(ssid, password);
    while (WiFi.status() != WL_CONNECTED) delay(500);].  Each element of
    [status] is the answer to one [WiFi.status()] poll, [true] standing for
    [WL_CONNECTED]; like [connect_to_mqtt] the loop has no bound of its own. *)

Fixpoint setup_wifi_poll (status : list bool) (tr : list Event)
  : option (list Event) :=
  match status with
  | [] => None
  | true :: _ => Some tr
  | false :: rest => setup_wifi_poll rest (tr ++ [Delay 500])
  end.

Definition setup_wifi (status : list bool) (tr : list Event)
  : option (list Event) :=
  setup_wifi_poll status (tr ++ [Delay 10]).

(** ** The module identifier: lines 248 to 250

    [sprintf(moduleId, "MULTISENSOR-%02x%02x%02x%02x%02x%02x", macAddress[0],
    ..., macAddress[5])] and [sprintf(defaultTopic, "%s/status", moduleId)].
    The arguments of [%02x] are bytes, so each prints as exactly two
    lower-case hexadecimal digits. *)

Definition hex_digit (n : N) : Ascii.ascii :=
  if (n <? 10)%N then Ascii.ascii_of_N (48 + n) else Ascii.ascii_of_N (87 + n).

Definition format_02x (b : Byte.byte) : string :=
  String (hex_digit (Byte.to_N b / 16))
    (String (hex_digit (Byte.to_N b mod 16)) EmptyString).

(** [byte macAddress[6]] *)
Record MacAddress := {
  mac0 : Byte.byte;
  mac1 : Byte.byte;
  mac2 : Byte.byte;
  mac3 : Byte.byte;
  mac4 : Byte.byte;
  mac5 : Byte.byte
}.

Definition moduleId_of (macAddress : MacAddress) : string :=
  ("MULTISENSOR-" ++ format_02x (mac0 macAddress) ++ format_02x (mac1 macAddress)
   ++ format_02x (mac2 macAddress) ++ format_02x (mac3 macAddress)
   ++ format_02x (mac4 macAddress) ++ format_02x (mac5 macAddress))%string.

Definition defaultTopic_of (moduleId : string) : string :=
  (moduleId ++ "/status")%string.

(** Capacities of [char moduleId[40]] and [char defaultTopic[60]], and the
    length given to the portal field of the topic (line 259). *)
Definition MODULE_ID_SIZE : nat := 40.
Definition DEFAULT_TOPIC_SIZE : nat := 60.
Definition TOPIC_FIELD_LENGTH : nat := 40.

(** Value of a hexadecimal digit, to read a module identifier back. *)
Definition hex_value (c : Ascii.ascii) : N :=
  let n := Ascii.N_of_ascii c in
  if (n <? 58)%N then (n - 48)%N else (n - 87)%N.

Definition parse_02x (s : string) : option Byte.byte :=
  match s with
  | String c1 (String c2 EmptyString) =>
      Byte.of_N (16 * hex_value c1 + hex_value c2)
  | _ => None
  end.

(** ** The EEPROM emulation and the stored configuration

    The configuration object is handled as its object representation, a list
    of [sizeof(MQTT_CONFIG)] bytes.  The EEPROM library keeps a RAM copy of
    the flash sector between [begin] and [end]: [read], [get], [write] and
    [put] work on the copy and check their address against its size,
    [write] and [put] mark it dirty when they change it, and [commit]
    programs a dirty copy into the flash, which may fail. *)

Definition STORAGE_TEST_VALUE : Byte.byte := Byte.xae.
Definition MQTT_CONFIG_STORAGE_ADDRESS : nat := 1.

(** 40 + 4 + 20 + 20 + 60 + 4 * 20 bytes; the [int] lies at offset 40 and
    needs no padding. *)
Definition sizeof_MQTT_CONFIG : nat := 224.

Record EEPROMClass := {
  (** content of the flash sector, by offset *)
  flash : nat -> Byte.byte;
  (** the RAM copy; empty outside [begin] ... [end] *)
  data : list Byte.byte;
  dirty : bool
}.

Definition EEPROM_begin (size : nat) (e : EEPROMClass) : EEPROMClass :=
  {| flash := flash e; data := map (flash e) (seq 0 size); dirty := false |}.

Definition EEPROM_read (address : nat) (e : EEPROMClass) : Byte.byte :=
  nth address (data e) Byte.x00.

Definition overwrite (address : nat) (bytes buffer : list Byte.byte)
  : list Byte.byte :=
  firstn address buffer ++ bytes ++ skipn (address + List.length bytes) buffer.

Definition bytes_eqb (a b : list Byte.byte) : bool :=
  if list_eq_dec Byte.byte_eq_dec a b then true else false.

Definition EEPROM_write (address : nat) (value : Byte.byte) (e : EEPROMClass)
  : EEPROMClass :=
  if (address <? List.length (data e))%nat then
    if Byte.eqb (nth address (data e) Byte.x00) value then e
    else {| flash := flash e; data := overwrite address [value] (data e);
            dirty := true |}
  else e.

(** [EEPROM.get(address, t)]: copies [sizeof(T)] bytes into [t], or leaves
    [t] alone when they do not lie inside the copy. *)
Definition EEPROM_get (address : nat) (t : list Byte.byte) (e : EEPROMClass)
  : list Byte.byte :=
  if (address + List.length t <=? List.length (data e))%nat
  then firstn (List.length t) (skipn address (data e))
  else t.

(** [EEPROM.put(address, t)] *)
Definition EEPROM_put (address : nat) (t : list Byte.byte) (e : EEPROMClass)
  : EEPROMClass :=
  if (address + List.length t <=? List.length (data e))%nat then
    if bytes_eqb (firstn (List.length t) (skipn address (data e))) t then e
    else {| flash := flash e; data := overwrite address t (data e);
            dirty := true |}
  else e.

(** [EEPROM.commit()]; [programmed] tells whether the flash accepts the
    write. *)
Definition EEPROM_commit (programmed : bool) (e : EEPROMClass) : EEPROMClass :=
  if dirty e && programmed then
    {| flash := fun a => if (a <? List.length (data e))%nat
                         then nth a (data e) Byte.x00 else flash e a;
       data := data e; dirty := false |}
  else e.

(** [EEPROM.end()]: commits and releases the copy. *)
Definition EEPROM_end (programmed : bool) (e : EEPROMClass) : EEPROMClass :=
  {| flash := flash (EEPROM_commit programmed e); data := []; dirty := false |}.

(** [loadConfig]: lines 190 to 199. *)
Definition loadConfig (config : list Byte.byte) (e : EEPROMClass)
  : bool * list Byte.byte * EEPROMClass :=
  let e1 := EEPROM_begin 512 e in
  let '(retval, config') :=
    if Byte.eqb (EEPROM_read 0 e1) STORAGE_TEST_VALUE
    then (true, EEPROM_get MQTT_CONFIG_STORAGE_ADDRESS config e1)
    else (false, config) in
  (retval, config', EEPROM_end true e1).

(** [saveConfig]: lines 201 to 211.  [programmed] and [programmed_at_end]
    are the outcomes of the flash writes of [commit()] and of [end()]. *)
Definition saveConfig (programmed programmed_at_end : bool)
  (config : list Byte.byte) (e : EEPROMClass) : EEPROMClass :=
  let e := EEPROM_begin 512 e in
  let e := EEPROM_write 0 STORAGE_TEST_VALUE e in
  let e := EEPROM_put MQTT_CONFIG_STORAGE_ADDRESS config e in
  let e := EEPROM_commit programmed e in
  EEPROM_end programmed_at_end e.

(** An erased sector, and a sector holding [config] behind the test value. *)
Definition erased_eeprom : EEPROMClass :=
  {| flash := fun _ => Byte.xff; data := []; dirty := false |}.

Definition zero_config : list Byte.byte := repeat Byte.x00 sizeof_MQTT_CONFIG.

(** ** The fields of [MQTT_CONFIG] in its object representation *)

Definition servername_offset : nat := 0.
Definition servername_size : nat := 40.
Definition serverport_offset : nat := 40.
Definition username_offset : nat := 44.
Definition username_size : nat := 20.
Definition password_offset : nat := 64.
Definition password_size : nat := 20.
Definition topic_offset : nat := 84.
Definition topic_size : nat := 60.
Definition propertyname0_offset : nat := 144.
Definition propertyname1_offset : nat := 164.
Definition propertyname2_offset : nat := 184.
Definition propertyname3_offset : nat := 204.
Definition propertyname_size : nat := 20.

(** The bytes of a C string up to its terminator; [None] when there is no
    terminator, where reading on leaves the bytes given. *)
Fixpoint until_nul (l : list Byte.byte) : option (list Byte.byte) :=
  match l with
  | [] => None
  | b :: rest =>
      if Byte.eqb b Byte.x00 then Some []
      else option_map (cons b) (until_nul rest)
  end.

(** The C string that begins at [offset] of the object.  Reading does not
    stop at the end of the character array it begins in: an array without
    terminator reads on into the fields that follow.  [None] when there is
    no terminator up to the end of the object. *)
Definition cstring_at (offset : nat) (image : list Byte.byte) : option string :=
  option_map String.string_of_list_byte (until_nul (skipn offset image)).

Definition byte_of_Z (z : Z) : Byte.byte :=
  match Byte.of_N (Z.to_N (z mod 256)) with
  | Some b => b
  | None => Byte.x00
  end.

Definition Z_of_byte (b : Byte.byte) : Z := Z.of_N (Byte.to_N b).

(** A 32-bit [int], least significant byte first. *)
Definition int_bytes (z : Z) : list Byte.byte :=
  let u := z mod 2 ^ 32 in
  [byte_of_Z u; byte_of_Z (u / 256); byte_of_Z (u / 65536);
   byte_of_Z (u / 16777216)].

Definition int_field (offset : nat) (image : list Byte.byte) : Z :=
  match firstn 4 (skipn offset image) with
  | [b0; b1; b2; b3] =>
      Long.wrap (Z_of_byte b0 + 256 * Z_of_byte b1 + 65536 * Z_of_byte b2
                 + 16777216 * Z_of_byte b3)
  | _ => 0
  end.

(** The configuration as the program reads it from the object: every
    character array as a C string. *)
Definition config_of_image (image : list Byte.byte) : option MQTT_CONFIG :=
  match cstring_at servername_offset image,
        cstring_at username_offset image,
        cstring_at password_offset image,
        cstring_at topic_offset image,
        cstring_at propertyname0_offset image,
        cstring_at propertyname1_offset image,
        cstring_at propertyname2_offset image,
        cstring_at propertyname3_offset image with
  | Some sn, Some un, Some pw, Some tp, Some p0, Some p1, Some p2, Some p3 =>
      Some {| servername := sn;
              serverport := int_field serverport_offset image;
              username := un; password := pw; topic := tp;
              propertyname0 := p0; propertyname1 := p1;
              propertyname2 := p2; propertyname3 := p3 |}
  | _, _, _, _, _, _, _, _ => None
  end.

(** The characters that [strcpy] takes from a text: those before its first
    NUL character, if it holds one. *)
Fixpoint c_str (l : list Byte.byte) : list Byte.byte :=
  match l with
  | [] => []
  | b :: rest => if Byte.eqb b Byte.x00 then [] else b :: c_str rest
  end.

(** [strcpy(field, value)] into a character array of the object that
    begins at [offset]: the characters of [value] and the terminator.
    Neither [strcpy] nor the source checks the length, so a value as long as
    its array or longer runs on into the fields that follow it in the
    object.  Bytes that would fall behind the object go to the memory that
    follows it, which the model does not hold: the object receives the bytes
    that lie inside it. *)
Definition strcpy (offset : nat) (value : string) (image : list Byte.byte)
  : list Byte.byte :=
  firstn (List.length image)
    (overwrite offset (c_str (String.list_byte_of_string value) ++ [Byte.x00])
       image).

Definition no_nul (s : string) : Prop :=
  ~ In Byte.x00 (String.list_byte_of_string s).

(** [atoi]: leading white space, an optional sign, then decimal digits up
    to the first other character; the library computes it as
    [(int) strtol(s, NULL, 10)], which saturates at the bounds of [long]. *)
Definition isspace (c : Ascii.ascii) : bool :=
  let n := Ascii.N_of_ascii c in
  (n =? 32)%N || ((9 <=? n)%N && (n <=? 13)%N).

Definition isdigit (c : Ascii.ascii) : bool :=
  let n := Ascii.N_of_ascii c in (48 <=? n)%N && (n <=? 57)%N.

Fixpoint skip_spaces (s : string) : string :=
  match s with
  | String c rest => if isspace c then skip_spaces rest else s
  | EmptyString => s
  end.

Fixpoint digits_value (acc : Z) (s : string) : Z :=
  match s with
  | String c rest =>
      if isdigit c
      then digits_value (10 * acc + (Z.of_N (Ascii.N_of_ascii c) - 48)) rest
      else acc
  | EmptyString => acc
  end.

Definition saturate (z : Z) : Z := Z.max Long.MIN (Z.min Long.MAX z).

Definition atoi (s : string) : Z :=
  match skip_spaces s with
  | String c rest =>
      if (Ascii.N_of_ascii c =? 45)%N then saturate (- digits_value 0 rest)
      else if (Ascii.N_of_ascii c =? 43)%N then saturate (digits_value 0 rest)
      else saturate (digits_value 0 (String c rest))
  | EmptyString => 0
  end.

(** ** [setup()]: lines 239 to 340 *)

(** What the user has entered in the configuration portal: for each of the
    nine fields the text entered, or [None] for a field left as offered. *)
Record PortalEdits := {
  edit_server : option string;
  edit_port : option string;
  edit_user : option string;
  edit_pass : option string;
  edit_topic : option string;
  edit_prop0 : option string;
  edit_prop1 : option string;
  edit_prop2 : option string;
  edit_prop3 : option string
}.

(** The outcome of [wifiManager.autoConnect]: its result, and the portal
    submission if one has been saved (the save callback then sets
    [shouldSaveConfig]). *)
Record AutoConnect := {
  res : bool;
  submitted : option PortalEdits
}.

Inductive SetupAction :=
| ResetSettings
| StartAutoConnect (apName : string)
| SetServer (host : option string) (port : Z)
| PinModeInputPullup (pin : Z)
| Wait (ms : Z).

Inductive SetupOutcome :=
| Restarted      (** [ESP.restart()] *)
| Halted         (** [while (1);] after the sensor was not found *)
| Ready.         (** [setup()] returns and [loop()] takes over *)

Record SetupResult := {
  outcome : SetupOutcome;
  moduleId : string;
  mqttConfig : list Byte.byte;
  EEPROM : EEPROMClass;
  actions : list SetupAction
}.

(** [getValue()] of a parameter registered with the default [default]. *)
Definition getValue (edit : option string) (default : string) : string :=
  match edit with
  | Some v => v
  | None => default
  end.

(** Lines 303 to 311.  The parameters registered with the manager are the
    ones declared at lines 255 to 263, whose defaults are the empty string,
    "1883" and [defaultTopic]; those declared inside the [if] at lines 271
    to 279 hide them only up to the end of that block. *)
Definition copy_parameters (defaultTopic : string) (edits : PortalEdits)
  (image : list Byte.byte) : list Byte.byte :=
  let image := strcpy servername_offset
                 (getValue (edit_server edits) EmptyString) image in
  let image := overwrite serverport_offset
                 (int_bytes (atoi (getValue (edit_port edits) "1883"))) image in
  let image := strcpy username_offset
                 (getValue (edit_user edits) EmptyString) image in
  let image := strcpy password_offset
                 (getValue (edit_pass edits) EmptyString) image in
  let image := strcpy topic_offset
                 (getValue (edit_topic edits) defaultTopic) image in
  let image := strcpy propertyname0_offset
                 (getValue (edit_prop0 edits) EmptyString) image in
  let image := strcpy propertyname1_offset
                 (getValue (edit_prop1 edits) EmptyString) image in
  let image := strcpy propertyname2_offset
                 (getValue (edit_prop2 edits) EmptyString) image in
  strcpy propertyname3_offset
    (getValue (edit_prop3 edits) EmptyString) image.

Definition DEBUG_SERIAL_START_DELAY : Z := 2000.
Definition AM2322_STARTUP_DELAY : Z := 2000.

(** [mqttClient.setServer(domain, port)] takes the port as [uint16_t]. *)
Definition uint16 (z : Z) : Z := z mod 65536.

Definition setup (macAddress : MacAddress) (portal : AutoConnect)
  (sensor_found programmed programmed_at_end : bool) (e : EEPROMClass)
  : SetupResult :=
  let id := moduleId_of macAddress in
  let defaultTopic := defaultTopic_of id in
  let '(loaded, image, e) := loadConfig zero_config e in
  let acts := [Wait DEBUG_SERIAL_START_DELAY]
              ++ (if loaded then [] else [ResetSettings])
              ++ [StartAutoConnect id] in
  let '(image, e) :=
    match submitted portal with
    | Some edits =>
        let image' := copy_parameters defaultTopic edits image in
        (image', saveConfig programmed programmed_at_end image' e)
    | None => (image, e)
    end in
  if negb (res portal) then
    {| outcome := Restarted; moduleId := id; mqttConfig := image;
       EEPROM := e; actions := acts |}
  else
    let acts := acts ++ [SetServer (cstring_at servername_offset image)
                           (uint16 (int_field serverport_offset image))] in
    if negb sensor_found then
      {| outcome := Halted; moduleId := id; mqttConfig := image;
         EEPROM := e; actions := acts |}
    else
      {| outcome := Ready; moduleId := id; mqttConfig := image;
         EEPROM := e;
         actions := acts ++ [PinModeInputPullup GPIO_SW0;
                             Wait AM2322_STARTUP_DELAY] |}.

(** A value that [strcpy] copies, terminator included, within an array
    of [size] bytes. *)
Definition fits (size : nat) (value : string) : Prop :=
  (strlen value < size)%nat /\ no_nul value.

(** Every value the portal hands to [copy_parameters] fits its array. *)
Definition edits_fit (defaultTopic : string) (edits : PortalEdits) : Prop :=
  fits servername_size (getValue (edit_server edits) EmptyString)
  /\ fits username_size (getValue (edit_user edits) EmptyString)
  /\ fits password_size (getValue (edit_pass edits) EmptyString)
  /\ fits topic_size (getValue (edit_topic edits) defaultTopic)
  /\ fits propertyname_size (getValue (edit_prop0 edits) EmptyString)
  /\ fits propertyname_size (getValue (edit_prop1 edits) EmptyString)
  /\ fits propertyname_size (getValue (edit_prop2 edits) EmptyString)
  /\ fits propertyname_size (getValue (edit_prop3 edits) EmptyString).

(** The configuration a portal submission stands for. *)
Definition submitted_config (defaultTopic : string) (edits : PortalEdits)
  : MQTT_CONFIG :=
  {| servername := getValue (edit_server edits) EmptyString;
     serverport := atoi (getValue (edit_port edits) "1883");
     username := getValue (edit_user edits) EmptyString;
     password := getValue (edit_pass edits) EmptyString;
     topic := getValue (edit_topic edits) defaultTopic;
     propertyname0 := getValue (edit_prop0 edits) EmptyString;
     propertyname1 := getValue (edit_prop1 edits) EmptyString;
     propertyname2 := getValue (edit_prop2 edits) EmptyString;
     propertyname3 := getValue (edit_prop3 edits) EmptyString |}.

(** A MAC address and a portal submission for the examples. *)
Definition mac_demo : MacAddress :=
  {| mac0 := Byte.xa1; mac1 := Byte.xb2; mac2 := Byte.xc3;
     mac3 := Byte.xd4; mac4 := Byte.xe5; mac5 := Byte.x0f |}.

Definition edits_demo : PortalEdits :=
  {| edit_server := Some "broker.local"%string; edit_port := None;
     edit_user := Some "node"%string; edit_pass := Some "secret"%string;
     edit_topic := None; edit_prop0 := Some "door"%string;
     edit_prop1 := None; edit_prop2 := None; edit_prop3 := None |}.


(** Total duration of the [delay] calls among the actions of [setup()]. *)
Definition total_wait (acts : list SetupAction) : Z :=
  fold_right (fun a acc => match a with
                           | Wait ms => ms + acc
                           | _ => acc
                           end) 0 acts.

(** ** Basic facts *)

Lemma wrap_in_range (z : Z) : Long.MIN <= z <= Long.MAX -> Long.wrap z = z.
Proof.
  unfold Long.wrap, Long.MIN, Long.MAX. intros H.
  rewrite Z.mod_small; lia.
Qed.

Lemma now_in_range (t : Tick) : in_range t -> now_of t = millis t.
Proof.
  unfold in_range, now_of, Long.MAX, MQTT_PUBLISH_HARD_INTERVAL. intros H.
  apply wrap_in_range. unfold Long.MIN, Long.MAX. lia.
Qed.

Lemma add_in_range (a b : Z) :
  Long.MIN <= a + b <= Long.MAX -> Long.add a b = a + b.
Proof. unfold Long.add. apply wrap_in_range. Qed.

Lemma events_since_app (st st' : State) (evs : list Event) :
  trace st' = trace st ++ evs -> events_since st st' = evs.
Proof.
  unfold events_since. intros ->.
  rewrite skipn_app, skipn_all, Nat.sub_diag. reflexivity.
Qed.

Lemma publish_times_app (a b : list Event) :
  publish_times (a ++ b) = publish_times a ++ publish_times b.
Proof. unfold publish_times. apply flat_map_app. Qed.

Lemma backoff_waits_app (a b : list Event) :
  backoff_waits (a ++ b) = backoff_waits a ++ backoff_waits b.
Proof. unfold backoff_waits. apply flat_map_app. Qed.

Lemma existsb_permutation {A : Type} (f : A -> bool) (l l' : list A) :
  Permutation l l' -> existsb f l = existsb f l'.
Proof.
  intros HP. apply eq_true_iff_eq. rewrite !existsb_exists.
  split; intros [x [Hin Hf]]; exists x; split; auto.
  - eapply Permutation_in; eauto.
  - eapply Permutation_in; [apply Permutation_sym|]; eauto.
Qed.

Lemma hasChanged_channel_order (a b : Samples) :
  hasChanged a b = hasChanged_in_order channel_order a b.
Proof.
  unfold hasChanged, hasChanged_in_order, channel_order, channel_differs.
  cbn [existsb channel_value switch_value].
  rewrite orb_false_r, !orb_assoc. reflexivity.
Qed.

(** ** The change test *)

(** C6: the change test of line 378 is true exactly when some channel holds
    different values in the two sample sets (the sentinel is compared like any
    other value); it is symmetric, false on identical arguments, and gives the
    same result when the channels are compared in any other order. *)
Theorem hasChanged_symmetric_irreflexive_order_free :
  forall a b : Samples,
    (hasChanged a b = true <->
       exists c, channel_value c a <> channel_value c b)
    /\ hasChanged a b = hasChanged b a
    /\ hasChanged a a = false
    /\ (forall order,
          Permutation channel_order order ->
          hasChanged_in_order order a b = hasChanged a b).
Proof.
  intros a b. repeat split.
  - rewrite hasChanged_channel_order. unfold hasChanged_in_order.
    rewrite existsb_exists. intros [c [_ Hc]]. exists c.
    unfold channel_differs in Hc. apply negb_true_iff, Z.eqb_neq in Hc. exact Hc.
  - intros [c Hc]. rewrite hasChanged_channel_order. unfold hasChanged_in_order.
    apply existsb_exists. exists c. split.
    + unfold channel_order. destruct c as [| |[]]; simpl; tauto.
    + unfold channel_differs. apply negb_true_iff, Z.eqb_neq. exact Hc.
  - unfold hasChanged.
    rewrite (Z.eqb_sym (HUMIDITY a)), (Z.eqb_sym (TEMPERATURE a)),
      (Z.eqb_sym (SW0 a)), (Z.eqb_sym (SW1 a)), (Z.eqb_sym (SW2 a)),
      (Z.eqb_sym (SW3 a)).
    reflexivity.
  - unfold hasChanged. rewrite !Z.eqb_refl. reflexivity.
  - intros order HP. rewrite hasChanged_channel_order.
    unfold hasChanged_in_order. symmetry. apply existsb_permutation. exact HP.
Qed.

Lemma hasChanged_symmetric_irreflexive_order_free_witness :
  Permutation channel_order (rev channel_order)
  /\ hasChanged_in_order (rev channel_order)
       (set_SW1 1 undefined_samples) undefined_samples
     = hasChanged (set_SW1 1 undefined_samples) undefined_samples.
Proof.
  split.
  - apply Permutation_rev.
  - apply (hasChanged_symmetric_irreflexive_order_free
             (set_SW1 1 undefined_samples) undefined_samples).
    apply Permutation_rev.
Defined.

(** ** The broker connection *)

Lemma connect_to_mqtt_connected (results : list bool) (st : State) :
  mqttClient_connected st = true -> connect_to_mqtt results st = Some st.
Proof. intros H. destruct results as [|[] ?]; simpl; rewrite H; reflexivity. Qed.

Lemma connect_to_mqtt_fails_first (results : list bool) (st : State) :
  mqttClient_connected st = false ->
  connect_to_mqtt (false :: results) st
  = connect_to_mqtt results (emit (Delay 5000) (emit (MqttConnect false) st)).
Proof. intros H. simpl. rewrite H. reflexivity. Qed.

Lemma connect_to_mqtt_retries (n : nat) (rest : list bool) (st : State) :
  mqttClient_connected st = false ->
  exists st',
    connect_to_mqtt (repeat false n ++ true :: rest) st = Some st'
    /\ mqttClient_connected st' = true
    /\ trace st' = trace st ++ List.concat (repeat failed_attempt n) ++ [MqttConnect true].
Proof.
  revert st. induction n as [|n IH]; intros st Hdown.
  - exists (set_connected true (emit (MqttConnect true) st)).
    cbn [repeat app List.concat]. split; [|split; reflexivity].
    cbn [connect_to_mqtt]. rewrite Hdown.
    apply connect_to_mqtt_connected. reflexivity.
  - cbn [repeat app]. rewrite connect_to_mqtt_fails_first by exact Hdown.
    destruct (IH (emit (Delay 5000) (emit (MqttConnect false) st)) Hdown)
      as [st' [Hrun [Hup Htr]]].
    exists st'. split; [exact Hrun|]. split; [exact Hup|].
    rewrite Htr. cbn [emit trace List.concat repeat failed_attempt].
    rewrite <- !app_assoc. reflexivity.
Qed.

Lemma connect_to_mqtt_keeps_trying (n : nat) (st : State) :
  mqttClient_connected st = false -> connect_to_mqtt (repeat false n) st = None.
Proof.
  revert st. induction n as [|n IH]; intros st Hdown.
  - simpl. rewrite Hdown. reflexivity.
  - cbn [repeat]. rewrite connect_to_mqtt_fails_first by exact Hdown.
    apply IH. exact Hdown.
Qed.

Lemma backoff_waits_failed_attempts (n : nat) :
  backoff_waits (List.concat (repeat failed_attempt n) ++ [MqttConnect true])
  = repeat 5000 n.
Proof.
  induction n as [|n IH]; [reflexivity|].
  cbn [repeat List.concat]. rewrite <- app_assoc, backoff_waits_app, IH. reflexivity.
Qed.

(** C8: entered without a broker session, [connect_to_mqtt] on [n] failing
    connect attempts followed by a successful one returns with the session
    up, having waited 5000 ms after each failure and not after the success:
    exactly [n] waits.  The loop has no bound of its own: on [n] failures and
    nothing else it has not returned, whatever [n] is. *)
Theorem connect_to_mqtt_backoff :
  forall (n : nat) (rest : list bool) (st : State),
    mqttClient_connected st = false ->
    (exists st',
        connect_to_mqtt (repeat false n ++ true :: rest) st = Some st'
        /\ mqttClient_connected st' = true
        /\ trace st'
           = trace st ++ List.concat (repeat failed_attempt n) ++ [MqttConnect true]
        /\ backoff_waits (events_since st st') = repeat 5000 n)
    /\ connect_to_mqtt (repeat false n) st = None.
Proof.
  intros n rest st Hdown. split.
  - destruct (connect_to_mqtt_retries n rest st Hdown) as [st' [Hrun [Hup Htr]]].
    exists st'. repeat split; auto.
    rewrite (events_since_app _ _ _ Htr). apply backoff_waits_failed_attempts.
  - apply connect_to_mqtt_keeps_trying. exact Hdown.
Qed.

Lemma connect_to_mqtt_backoff_witness :
  mqttClient_connected boot = false
  /\ exists st',
       connect_to_mqtt (repeat false 3 ++ true :: [false; true]) boot = Some st'
       /\ mqttClient_connected st' = true
       /\ trace st'
          = trace boot ++ List.concat (repeat failed_attempt 3) ++ [MqttConnect true]
       /\ backoff_waits (events_since boot st') = repeat 5000 3.
Proof.
  split.
  - reflexivity.
  - apply (connect_to_mqtt_backoff 3 [false; true] boot). reflexivity.
Defined.

(** ** One call of [loop()]: what the connection service and the scheduler
    leave alone *)

Lemma connect_to_mqtt_frame (results : list bool) (st st1 : State) :
  connect_to_mqtt results st = Some st1 ->
  same_schedule st st1
  /\ mqttClient_connected st1 = true
  /\ exists evs, trace st1 = trace st ++ evs /\ existsb is_publish evs = false.
Proof.
  revert st. induction results as [|r rest IH]; intros st.
  - simpl. destruct (mqttClient_connected st) eqn:Hc; [|discriminate].
    intros [= <-]. unfold same_schedule. repeat split; auto.
    exists []. rewrite app_nil_r. auto.
  - simpl. destruct (mqttClient_connected st) eqn:Hc.
    + intros [= <-]. unfold same_schedule. repeat split; auto.
      exists []. rewrite app_nil_r. auto.
    + destruct r; intros H; apply IH in H;
        destruct H as [Hs [Hup [evs [Htr Hno]]]];
        unfold same_schedule in *; cbn [emit set_connected
          mqttPublishSoftDeadline mqttPublishHardDeadline CURRENT PREVIOUS
          jsonBuffer trace] in *;
        (split; [exact Hs|]); (split; [exact Hup|]).
      * exists (MqttConnect true :: evs). rewrite Htr, <- app_assoc. auto.
      * exists (MqttConnect false :: Delay 5000 :: evs).
        rewrite Htr, <- !app_assoc. auto.
Qed.

Lemma service_connection_frame (t : Tick) (st st1 : State) :
  service_connection t st = Some st1 ->
  same_schedule st st1
  /\ exists evs, trace st1 = trace st ++ evs /\ existsb is_publish evs = false.
Proof.
  unfold service_connection.
  destruct (mqttClient_connected st) eqn:Hc.
  - intros [= <-]. unfold same_schedule. cbn. repeat split; auto.
    exists []. rewrite app_nil_r. auto.
  - destruct (connect_to_mqtt (connect_results t) st) as [st0|] eqn:Hconn;
      [|discriminate].
    intros [= <-]. apply connect_to_mqtt_frame in Hconn.
    destruct Hconn as [Hs [_ Hevs]]. split; [exact Hs | exact Hevs].
Qed.

Lemma connect_to_mqtt_returns (results : list bool) (st : State) :
  In true results -> exists st1, connect_to_mqtt results st = Some st1.
Proof.
  revert st. induction results as [|r rest IH]; intros st Hin; [destruct Hin|].
  simpl. destruct (mqttClient_connected st) eqn:Hc; [eauto|].
  destruct r.
  - rewrite connect_to_mqtt_connected by reflexivity. eauto.
  - destruct Hin as [Hin|Hin]; [discriminate|]. apply IH. exact Hin.
Qed.

Lemma service_connection_returns (t : Tick) (st : State) :
  mqttClient_connected st = true \/ In true (connect_results t) ->
  exists st1, service_connection t st = Some st1.
Proof.
  intros H. unfold service_connection.
  destruct (mqttClient_connected st) eqn:Hc; [eauto|].
  destruct H as [H|H]; [discriminate|].
  destruct (connect_to_mqtt_returns (connect_results t) st H) as [st0 ->]. eauto.
Qed.

Lemma due_same_schedule (cfg : MQTT_CONFIG) (t : Tick) (st st1 : State) :
  same_schedule st st1 -> due cfg t st1 = due cfg t st.
Proof.
  intros (Hs & Hh & Hc & Hp & _). unfold due. rewrite Hs, Hh, Hc, Hp. reflexivity.
Qed.

(** The scheduler adds one publish event when [due], and nothing otherwise. *)
Lemma scheduler_trace (cfg : MQTT_CONFIG) (t : Tick) (st : State) :
  trace (scheduler cfg t st)
  = trace st ++
      (if due cfg t st
       then [MqttPublish (now_of t) (topic cfg)
               (fill_json cfg (read_sensors cfg t (CURRENT st)) (jsonBuffer st))
               (mqttClient_connected st && publish_sent t)]
       else []).
Proof.
  unfold scheduler, due.
  destruct (mqttPublishSoftDeadline st <? now_of t); cbn [andb];
    [|rewrite app_nil_r; reflexivity].
  destruct (hasChanged _ _ || _); cbn [trace];
    [reflexivity | rewrite app_nil_r; reflexivity].
Qed.

Lemma scheduler_connected (cfg : MQTT_CONFIG) (t : Tick) (st : State) :
  mqttClient_connected (scheduler cfg t st) = mqttClient_connected st.
Proof.
  unfold scheduler.
  destruct (_ <? _); [destruct (_ || _)|]; reflexivity.
Qed.

Lemma scheduler_snapshot (cfg : MQTT_CONFIG) (t : Tick) (st : State) :
  if due cfg t st
  then PREVIOUS (scheduler cfg t st) = CURRENT (scheduler cfg t st)
       /\ mqttPublishHardDeadline (scheduler cfg t st)
          = Long.add (now_of t) MQTT_PUBLISH_HARD_INTERVAL
  else PREVIOUS (scheduler cfg t st) = PREVIOUS st
       /\ mqttPublishHardDeadline (scheduler cfg t st)
          = mqttPublishHardDeadline st.
Proof.
  unfold scheduler, due.
  destruct (mqttPublishSoftDeadline st <? now_of t); cbn [andb]; [|auto].
  destruct (hasChanged _ _ || _); cbn; auto.
Qed.

Lemma scheduler_current (cfg : MQTT_CONFIG) (t : Tick) (st : State) :
  CURRENT (scheduler cfg t st)
  = if mqttPublishSoftDeadline st <? now_of t
    then read_sensors cfg t (CURRENT st) else CURRENT st.
Proof.
  unfold scheduler.
  destruct (_ <? _); [destruct (_ || _)|]; reflexivity.
Qed.

(** What a completed call of [loop()] adds to the trace. *)
Lemma loop_events (cfg : MQTT_CONFIG) (t : Tick) (st st' : State) :
  loop cfg t st = Some st' ->
  exists st1 evs,
    service_connection t st = Some st1
    /\ st' = scheduler cfg t st1
    /\ same_schedule st st1
    /\ existsb is_publish evs = false
    /\ events_since st st'
       = evs ++
           (if due cfg t st
            then [MqttPublish (now_of t) (topic cfg)
                    (fill_json cfg (read_sensors cfg t (CURRENT st)) (jsonBuffer st))
                    (mqttClient_connected st1 && publish_sent t)]
            else []).
Proof.
  unfold loop. destruct (service_connection t st) as [st1|] eqn:Hsvc; [|discriminate].
  intros [= <-]. destruct (service_connection_frame _ _ _ Hsvc) as [Hs [evs [Htr Hno]]].
  exists st1, evs. repeat split; auto; try apply Hs.
  apply events_since_app. rewrite scheduler_trace, Htr, <- app_assoc.
  rewrite (due_same_schedule cfg t st st1 Hs).
  destruct Hs as (_ & _ & Hc & _ & Hj). rewrite Hc, Hj. reflexivity.
Qed.

Lemma loop_publishes_iff_due (cfg : MQTT_CONFIG) (t : Tick) (st st' : State) :
  loop cfg t st = Some st' ->
  existsb is_publish (events_since st st') = due cfg t st.
Proof.
  intros H. destruct (loop_events _ _ _ _ H) as (st1 & evs & _ & _ & _ & Hno & ->).
  rewrite existsb_app, Hno. destruct (due cfg t st); reflexivity.
Qed.

(** ** Snapshot and hard deadline *)

(** C1, as the code has it: a call of [loop()] that attempts a publish sets
    the previous snapshot to the current sample set and the hard deadline to
    [now + MQTT_PUBLISH_HARD_INTERVAL] right after the attempt, whether the
    transmission succeeds or fails (the result of [mqttClient.publish] is
    not read); a call that attempts no publish leaves both unchanged. *)
Theorem snapshot_follows_publish_attempt :
  forall (cfg : MQTT_CONFIG) (t : Tick) (st st' : State),
    loop cfg t st = Some st' ->
    if existsb is_publish (events_since st st')
    then PREVIOUS st' = CURRENT st'
         /\ mqttPublishHardDeadline st'
            = Long.add (now_of t) MQTT_PUBLISH_HARD_INTERVAL
    else PREVIOUS st' = PREVIOUS st
         /\ mqttPublishHardDeadline st' = mqttPublishHardDeadline st.
Proof.
  intros cfg t st st' H.
  rewrite (loop_publishes_iff_due _ _ _ _ H).
  destruct (loop_events _ _ _ _ H) as (st1 & evs & _ & -> & Hs & _ & _).
  rewrite <- (due_same_schedule cfg t st st1 Hs).
  pose proof (scheduler_snapshot cfg t st1) as Hsnap.
  destruct Hs as (_ & Hh & _ & Hp & _).
  destruct (due cfg t st1); [exact Hsnap|].
  rewrite <- Hp, <- Hh. exact Hsnap.
Qed.

Lemma snapshot_follows_publish_attempt_witness :
  exists st',
    loop cfg_tilt (tick_unsent 5000 (only_high GPIO_SW0) (Some (22, 45))) boot
    = Some st'
    /\ (if existsb is_publish (events_since boot st')
        then PREVIOUS st' = CURRENT st'
             /\ mqttPublishHardDeadline st'
                = Long.add
                    (now_of (tick_unsent 5000 (only_high GPIO_SW0) (Some (22, 45))))
                    MQTT_PUBLISH_HARD_INTERVAL
        else PREVIOUS st' = PREVIOUS boot
             /\ mqttPublishHardDeadline st' = mqttPublishHardDeadline boot).
Proof.
  eexists. split.
  - vm_compute. reflexivity.
  - apply (snapshot_follows_publish_attempt cfg_tilt
             (tick_unsent 5000 (only_high GPIO_SW0) (Some (22, 45))) boot).
    vm_compute. reflexivity.
Defined.

(** C1 as stated fails: in this call of [loop()] the transmission of the
    publish fails, and yet the previous snapshot and the hard deadline are
    both overwritten. *)
Lemma failed_publish_overwrites_snapshot :
  exists st',
    loop cfg_plain (tick_unsent 5000 all_low (Some (22, 45))) boot = Some st'
    /\ events_since boot st'
       = [MqttConnect true;
          MqttPublish 5000 (topic cfg_plain)
            [("humidity"%string, 45); ("temperature"%string, 22)] false]
    /\ PREVIOUS boot = undefined_samples
    /\ HUMIDITY (PREVIOUS st') = 45
    /\ TEMPERATURE (PREVIOUS st') = 22
    /\ mqttPublishHardDeadline boot = 0
    /\ mqttPublishHardDeadline st' = 35000.
Proof.
  eexists. split; [vm_compute; reflexivity|].
  vm_compute. repeat split; reflexivity.
Qed.

(** ** The first call of [loop()] *)

(** C2: the first call of [loop()] after boot publishes, whatever the
    sensors return.  The clock is positive there ([setup()] has waited
    [DEBUG_SERIAL_START_DELAY] and [AM2322_STARTUP_DELAY] milliseconds) and
    the call runs the scheduler once the broker has accepted a connection. *)
Theorem first_tick_publishes :
  forall (cfg : MQTT_CONFIG) (t : Tick),
    0 < now_of t ->
    In true (connect_results t) ->
    exists st' evs ok,
      loop cfg t boot = Some st'
      /\ trace st'
         = evs ++ [MqttPublish (now_of t) (topic cfg)
                     (fill_json cfg (read_sensors cfg t undefined_samples) [])
                     ok]
      /\ existsb is_publish evs = false.
Proof.
  intros cfg t Hnow Hconn.
  destruct (service_connection_returns t boot (or_intror Hconn)) as [st1 Hsvc].
  assert (Hloop : loop cfg t boot = Some (scheduler cfg t st1)).
  { unfold loop. rewrite Hsvc. reflexivity. }
  destruct (loop_events _ _ _ _ Hloop) as (st1' & evs & Hsvc' & _ & _ & Hno & Hev).
  rewrite Hsvc in Hsvc'. injection Hsvc' as <-.
  assert (Hdue : due cfg t boot = true).
  { unfold due. cbn [boot mqttPublishSoftDeadline mqttPublishHardDeadline].
    apply Z.ltb_lt in Hnow. rewrite Hnow, orb_true_r. reflexivity. }
  rewrite Hdue in Hev.
  exists (scheduler cfg t st1), evs, (mqttClient_connected st1 && publish_sent t).
  split; [exact Hloop|]. split; [|exact Hno].
  unfold events_since in Hev. cbn [boot trace List.length skipn] in Hev. exact Hev.
Qed.

Lemma first_tick_publishes_witness :
  0 < now_of (tick_at 4000 all_low None)
  /\ In true (connect_results (tick_at 4000 all_low None))
  /\ exists st' evs ok,
       loop cfg_plain (tick_at 4000 all_low None) boot = Some st'
       /\ trace st'
          = evs ++ [MqttPublish (now_of (tick_at 4000 all_low None))
                      (topic cfg_plain)
                      (fill_json cfg_plain
                         (read_sensors cfg_plain (tick_at 4000 all_low None)
                            undefined_samples) [])
                      ok]
       /\ existsb is_publish evs = false.
Proof.
  split; [vm_compute; reflexivity|].
  split; [simpl; auto|].
  apply (first_tick_publishes cfg_plain (tick_at 4000 all_low None)).
  - vm_compute. reflexivity.
  - simpl. auto.
Defined.

(** When every read fails or is disabled the first sample set equals the
    initial snapshot: that first publish is owed to the hard deadline, which
    starts at 0, and not to the change test. *)
Lemma first_tick_all_undefined_unchanged :
  hasChanged
    (read_sensors cfg_plain (tick_at 4000 all_low None) (CURRENT boot))
    (PREVIOUS boot) = false
  /\ due cfg_plain (tick_at 4000 all_low None) boot = true.
Proof. split; vm_compute; reflexivity. Qed.

(** ** The pins of the switch channels *)

Lemma SW2_reads_GPIO_SW1 (cfg : MQTT_CONFIG) (t : Tick) (cur : Samples) :
  propertyname2 cfg <> EmptyString ->
  SW2 (read_sensors cfg t cur) = digitalRead t GPIO_SW1.
Proof.
  intros Hname. unfold read_sensors.
  destruct (propertyname2 cfg) as [|c s] eqn:E2; [congruence|].
  cbn [strlen String.length nonzero Nat.eqb negb].
  destruct (nonzero (strlen (propertyname0 cfg)));
    destruct (nonzero (strlen (propertyname1 cfg)));
    destruct (nonzero (strlen (propertyname3 cfg)));
    destruct (AM2322_read t) as [[? ?]|]; reflexivity.
Qed.

(** C9 at a failing input: with all four switch channels enabled, the level
    of pin [GPIO_SW1] high and that of every other pin low, a call of
    [loop()] stores 1 in [CURRENT_SW2] although the pin [GPIO_SW2] of that
    channel reads 0: channels 1 and 2 are both sampled from [GPIO_SW1]. *)
Theorem SW1_and_SW2_sample_one_pin :
  exists st',
    loop cfg_tilt (tick_at 5000 (only_high GPIO_SW1) (Some (22, 45))) boot
    = Some st'
    /\ SW1 (CURRENT st') = only_high GPIO_SW1 GPIO_SW1
    /\ SW2 (CURRENT st') = only_high GPIO_SW1 GPIO_SW1
    /\ SW2 (CURRENT st') <> only_high GPIO_SW1 (own_pin Sw2)
    /\ own_pin Sw1 <> own_pin Sw2.
Proof.
  eexists. split; [vm_compute; reflexivity|].
  vm_compute. repeat split; discriminate.
Qed.

(** ** Invariants of the control loop *)

Lemma run_invariant (P : State -> Prop) (cfg : MQTT_CONFIG) :
  (forall t st st', P st -> loop cfg t st = Some st' -> P st') ->
  forall ticks st0 st, P st0 -> run cfg ticks st0 = Some st -> P st.
Proof.
  intros Hstep ticks. induction ticks as [|t rest IH]; intros st0 st H0.
  - intros [= <-]. exact H0.
  - simpl. destruct (loop cfg t st0) as [st1|] eqn:Hl; [|discriminate].
    apply IH. eapply Hstep; eauto.
Qed.

Lemma run_snoc (cfg : MQTT_CONFIG) (ticks : list Tick) (t : Tick) (st0 st st' : State) :
  run cfg ticks st0 = Some st -> loop cfg t st = Some st' ->
  run cfg (ticks ++ [t]) st0 = Some st'.
Proof.
  revert st0. induction ticks as [|u rest IH]; intros st0.
  - intros [= ->] Hl. simpl. rewrite Hl. reflexivity.
  - simpl. destruct (loop cfg u st0) as [st1|]; [|discriminate]. apply IH.
Qed.

Lemma loop_trace_extends (cfg : MQTT_CONFIG) (t : Tick) (st st' : State) :
  loop cfg t st = Some st' -> trace st' = trace st ++ events_since st st'.
Proof.
  intros H. destruct (loop_events _ _ _ _ H) as (st1 & evs & Hsvc & -> & Hs & _ & _).
  destruct (service_connection_frame _ _ _ Hsvc) as [_ [evs1 [Htr _]]].
  assert (Hext : exists e, trace (scheduler cfg t st1) = trace st ++ e).
  { rewrite scheduler_trace, Htr, <- app_assoc. eauto. }
  destruct Hext as [e He]. rewrite (events_since_app _ _ _ He). exact He.
Qed.

Lemma nonzero_strlen (s : string) :
  nonzero (strlen s) = true <-> s <> EmptyString.
Proof. destruct s; cbn; split; congruence. Qed.

Lemma nonzero_strlen_empty (s : string) :
  s = EmptyString -> nonzero (strlen s) = false.
Proof. intros ->. reflexivity. Qed.

(** A switch whose property name is empty is not touched by the sampling. *)
Lemma read_sensors_disabled (cfg : MQTT_CONFIG) (t : Tick) (cur : Samples)
  (s : Switch) :
  propertyname cfg s = EmptyString ->
  switch_value s (read_sensors cfg t cur) = switch_value s cur.
Proof.
  intros Hname. unfold read_sensors.
  destruct s; cbn [propertyname] in Hname;
    rewrite (nonzero_strlen_empty _ Hname);
    repeat match goal with
           | |- context [nonzero (strlen ?n)] => destruct (nonzero (strlen n))
           end;
    destruct (AM2322_read t) as [[? ?]|]; reflexivity.
Qed.

Lemma json_set_keys (k : string) (v : Z) (doc : JsonDocument) (k' : string) :
  In k' (json_keys (json_set k v doc)) -> k' = k \/ In k' (json_keys doc).
Proof.
  induction doc as [|[k0 v0] rest IH]; simpl.
  - intros [H|[]]. auto.
  - destruct (String.eqb k0 k) eqn:E; simpl.
    + apply String.eqb_eq in E. subst k0. intros [H|H]; auto.
    + intros [H|H]; auto. destruct (IH H); auto.
Qed.

Lemma fill_json_keys (cfg : MQTT_CONFIG) (cur : Samples) (doc : JsonDocument) :
  (forall k, In k (json_keys doc) -> allowed_key cfg k) ->
  forall k, In k (json_keys (fill_json cfg cur doc)) -> allowed_key cfg k.
Proof.
  intros Hdoc k. unfold fill_json.
  repeat match goal with
         | |- context [nonzero (strlen ?n)] =>
             let E := fresh "E" in
             destruct (nonzero (strlen n)) eqn:E;
             [apply nonzero_strlen in E|]
         end;
    intros Hin;
    repeat match goal with
           | H : In _ (json_keys (json_set _ _ _)) |- _ =>
               apply json_set_keys in H; destruct H as [H|H]
           end;
    try (apply Hdoc; assumption);
    subst k; unfold allowed_key; auto;
    right; right;
    first [ exists Sw0; split; [reflexivity|assumption]
          | exists Sw1; split; [reflexivity|assumption]
          | exists Sw2; split; [reflexivity|assumption]
          | exists Sw3; split; [reflexivity|assumption] ].
Qed.

Lemma disabled_key_not_allowed (cfg : MQTT_CONFIG) (s : Switch) :
  propertyname cfg s = EmptyString -> ~ allowed_key cfg (propertyname cfg s).
Proof.
  intros Hname. rewrite Hname. intros [H|[H|[s' [_ H]]]];
    [discriminate | discriminate | congruence].
Qed.

(** The document and every published payload hold allowed keys only. *)
Lemma keys_allowed_invariant (cfg : MQTT_CONFIG) (ticks : list Tick) (st : State) :
  run cfg ticks boot = Some st ->
  (forall k, In k (json_keys (jsonBuffer st)) -> allowed_key cfg k)
  /\ payloads (fun p => forall k, In k (json_keys p) -> allowed_key cfg k)
       (trace st).
Proof.
  apply (run_invariant
           (fun st =>
              (forall k, In k (json_keys (jsonBuffer st)) -> allowed_key cfg k)
              /\ payloads (fun p => forall k, In k (json_keys p) -> allowed_key cfg k)
                   (trace st)) cfg).
  - intros t s0 s1 [Hdoc Hpay] Hl.
    pose proof (loop_trace_extends _ _ _ _ Hl) as Htr.
    destruct (loop_events _ _ _ _ Hl) as (st1 & evs & _ & -> & Hs & Hno & Hev).
    destruct Hs as (_ & _ & Hc & _ & Hj).
    split.
    + unfold scheduler.
      destruct (_ <? _); [destruct (_ || _)|]; cbn [jsonBuffer];
        rewrite ?Hj; auto.
      apply fill_json_keys. exact Hdoc.
    + intros n tp p ok Hin. rewrite Htr, Hev in Hin.
      apply in_app_or in Hin. destruct Hin as [Hin|Hin]; [eapply Hpay; eauto|].
      apply in_app_or in Hin. destruct Hin as [Hin|Hin].
      * exfalso. assert (Hex : existsb is_publish evs = true)
          by (apply existsb_exists; eexists; split; [exact Hin|reflexivity]).
        congruence.
      * destruct (due cfg t s0); [|destruct Hin].
        destruct Hin as [Hin|[]]. injection Hin as _ _ <- _.
        apply fill_json_keys. exact Hdoc.
  - split; [intros k []|]. intros n tp p ok [].
Qed.

Lemma disabled_switch_invariant (cfg : MQTT_CONFIG) (s : Switch)
  (ticks : list Tick) (st : State) :
  propertyname cfg s = EmptyString ->
  run cfg ticks boot = Some st ->
  switch_value s (CURRENT st) = SENSOR_UNDEFINED_VALUE
  /\ switch_value s (PREVIOUS st) = SENSOR_UNDEFINED_VALUE.
Proof.
  intros Hname.
  apply (run_invariant
           (fun st => switch_value s (CURRENT st) = SENSOR_UNDEFINED_VALUE
                      /\ switch_value s (PREVIOUS st) = SENSOR_UNDEFINED_VALUE) cfg).
  - intros t s0 s1 [Hc Hp] Hl.
    destruct (loop_events _ _ _ _ Hl) as (st1 & evs & _ & -> & Hs & _ & _).
    destruct Hs as (_ & _ & Hc1 & Hp1 & _).
    assert (Hcur : switch_value s (CURRENT (scheduler cfg t st1))
                   = SENSOR_UNDEFINED_VALUE).
    { rewrite scheduler_current, Hc1.
      destruct (_ <? _); [rewrite read_sensors_disabled by exact Hname|]; exact Hc. }
    split; [exact Hcur|].
    pose proof (scheduler_snapshot cfg t st1) as Hsnap.
    destruct (due cfg t st1); destruct Hsnap as [Hprev _]; rewrite Hprev.
    + exact Hcur.
    + rewrite Hp1. exact Hp.
  - destruct s; split; reflexivity.
Qed.

(** ** Disabled channels *)

(** C5: a switch channel whose property name is empty is never sampled (no
    call of [loop()] changes its current value, whatever the pins show) and
    the messages published so far hold no member under its key. *)
Theorem disabled_channel_not_sampled_not_published :
  forall (cfg : MQTT_CONFIG) (s : Switch) (ticks : list Tick) (t : Tick)
         (st st' : State),
    propertyname cfg s = EmptyString ->
    run cfg ticks boot = Some st ->
    loop cfg t st = Some st' ->
    switch_value s (CURRENT st') = switch_value s (CURRENT st)
    /\ payloads (fun p => ~ In (propertyname cfg s) (json_keys p)) (trace st')
    /\ payloads (fun p => forall k, In k (json_keys p) -> allowed_key cfg k)
         (trace st').
Proof.
  intros cfg s ticks t st st' Hname Hrun Hl.
  split.
  - destruct (loop_events _ _ _ _ Hl) as (st1 & evs & _ & -> & Hs & _ & _).
    destruct Hs as (_ & _ & Hc & _ & _).
    rewrite scheduler_current, Hc.
    destruct (_ <? _); [apply read_sensors_disabled; exact Hname | reflexivity].
  - pose proof (keys_allowed_invariant cfg _ _ (run_snoc _ _ _ _ _ _ Hrun Hl))
      as [_ Hpay].
    split; [|exact Hpay].
    intros n tp p ok Hin Hkey.
    apply (disabled_key_not_allowed cfg s Hname).
    eapply Hpay; eauto.
Qed.

Lemma disabled_channel_not_sampled_not_published_witness :
  propertyname cfg_plain Sw2 = EmptyString
  /\ exists st st',
       run cfg_plain [tick_at 5000 all_high (Some (22, 45))] boot = Some st
       /\ loop cfg_plain (tick_at 9000 all_low (Some (23, 45))) st = Some st'
       /\ switch_value Sw2 (CURRENT st') = switch_value Sw2 (CURRENT st)
       /\ payloads (fun p => ~ In (propertyname cfg_plain Sw2) (json_keys p))
            (trace st').
Proof.
  split; [reflexivity|].
  eexists. eexists.
  split; [vm_compute; reflexivity|].
  split; [vm_compute; reflexivity|].
  pose proof (disabled_channel_not_sampled_not_published cfg_plain Sw2
                [tick_at 5000 all_high (Some (22, 45))]
                (tick_at 9000 all_low (Some (23, 45))) _ _
                eq_refl eq_refl eq_refl) as H.
  split; [apply H | apply H].
Defined.

(** C10: for a switch channel whose property name is empty, the current and
    the previous value are 999 in every state the loop reaches; so at the
    change test of any further call the channel compares equal, and a change
    that is detected is always the change of another channel. *)
Theorem disabled_channel_stays_undefined :
  forall (cfg : MQTT_CONFIG) (s : Switch) (ticks : list Tick) (st : State),
    propertyname cfg s = EmptyString ->
    run cfg ticks boot = Some st ->
    switch_value s (CURRENT st) = SENSOR_UNDEFINED_VALUE
    /\ switch_value s (PREVIOUS st) = SENSOR_UNDEFINED_VALUE
    /\ (forall t,
          channel_differs (Tilt s) (read_sensors cfg t (CURRENT st)) (PREVIOUS st)
          = false)
    /\ (forall t,
          hasChanged (read_sensors cfg t (CURRENT st)) (PREVIOUS st) = true ->
          exists c, c <> Tilt s
                    /\ channel_differs c (read_sensors cfg t (CURRENT st))
                         (PREVIOUS st) = true).
Proof.
  intros cfg s ticks st Hname Hrun.
  destruct (disabled_switch_invariant cfg s ticks st Hname Hrun) as [Hc Hp].
  assert (Hsame : forall t,
             channel_differs (Tilt s) (read_sensors cfg t (CURRENT st)) (PREVIOUS st)
             = false).
  { intros t. unfold channel_differs. cbn [channel_value].
    rewrite read_sensors_disabled by exact Hname.
    rewrite Hc, Hp, Z.eqb_refl. reflexivity. }
  repeat split; auto.
  intros t Hch. rewrite hasChanged_channel_order in Hch.
  unfold hasChanged_in_order in Hch. apply existsb_exists in Hch.
  destruct Hch as [c [_ Hd]]. exists c. split; [|exact Hd].
  intros ->. rewrite Hsame in Hd. discriminate.
Qed.

Lemma disabled_channel_stays_undefined_witness :
  propertyname cfg_plain Sw1 = EmptyString
  /\ exists st,
       run cfg_plain [tick_at 5000 all_high (Some (22, 45));
                      tick_at 9000 all_low None] boot = Some st
       /\ switch_value Sw1 (CURRENT st) = SENSOR_UNDEFINED_VALUE
       /\ switch_value Sw1 (PREVIOUS st) = SENSOR_UNDEFINED_VALUE.
Proof.
  split; [reflexivity|].
  eexists. split; [vm_compute; reflexivity|].
  pose proof (disabled_channel_stays_undefined cfg_plain Sw1
                [tick_at 5000 all_high (Some (22, 45)); tick_at 9000 all_low None]
                _ eq_refl eq_refl) as H.
  split; apply H.
Defined.

(** ** A failed sensor read *)

Lemma json_get_set_same (k : string) (v : Z) (doc : JsonDocument) :
  json_get k (json_set k v doc) = Some v.
Proof.
  induction doc as [|[k0 v0] rest IH]; simpl.
  - rewrite String.eqb_refl. reflexivity.
  - destruct (String.eqb k0 k) eqn:E; simpl.
    + rewrite String.eqb_refl. reflexivity.
    + rewrite E. exact IH.
Qed.

Lemma json_get_set_other (k k' : string) (v : Z) (doc : JsonDocument) :
  k' <> k -> json_get k (json_set k' v doc) = json_get k doc.
Proof.
  intros Hne. apply String.eqb_neq in Hne.
  induction doc as [|[k0 v0] rest IH]; simpl.
  - rewrite Hne. reflexivity.
  - destruct (String.eqb k0 k') eqn:E; simpl.
    + apply String.eqb_eq in E. subst k0. rewrite Hne. reflexivity.
    + rewrite IH. reflexivity.
Qed.

Lemma fill_json_builtin (cfg : MQTT_CONFIG) (cur : Samples) (doc : JsonDocument) :
  builtin_keys_free cfg ->
  json_get "humidity" (fill_json cfg cur doc) = Some (HUMIDITY cur)
  /\ json_get "temperature" (fill_json cfg cur doc) = Some (TEMPERATURE cur).
Proof.
  intros Hfree.
  destruct (Hfree Sw0) as [H0h H0t]. destruct (Hfree Sw1) as [H1h H1t].
  destruct (Hfree Sw2) as [H2h H2t]. destruct (Hfree Sw3) as [H3h H3t].
  cbn [propertyname] in *.
  unfold fill_json.
  repeat match goal with
         | |- context [nonzero (strlen ?n)] => destruct (nonzero (strlen n))
         end;
    (split;
     repeat (rewrite json_get_set_other by (assumption || discriminate));
     apply json_get_set_same).
Qed.

Lemma read_sensors_failed (cfg : MQTT_CONFIG) (t : Tick) (cur : Samples) :
  AM2322_read t = None ->
  HUMIDITY (read_sensors cfg t cur) = SENSOR_UNDEFINED_VALUE
  /\ TEMPERATURE (read_sensors cfg t cur) = SENSOR_UNDEFINED_VALUE.
Proof. intros H. unfold read_sensors. rewrite H. split; reflexivity. Qed.

(** The switches are sampled without regard to the AM2322. *)
Lemma read_sensors_switches (cfg : MQTT_CONFIG) (t : Tick) (cur : Samples)
  (am : option (Z * Z)) (s : Switch) :
  switch_value s (read_sensors cfg (with_AM2322 am t) cur)
  = switch_value s (read_sensors cfg t cur).
Proof.
  unfold read_sensors. cbn [with_AM2322 digitalRead AM2322_read].
  destruct (AM2322_read t) as [[? ?]|]; destruct am as [[? ?]|];
    destruct s; reflexivity.
Qed.

(** C7, as the code has it: in a call of [loop()] that samples and whose
    AM2322 read fails, humidity and temperature are both 999 in the sample
    set, and a message published by that call carries 999 under both keys
    provided no switch is bound to the property name humidity or temperature
    (a member stored later under the same key replaces the earlier one).
    Whatever the AM2322 returns, the switches take the same values and the
    broker session ends in the same state; and the call publishes whenever
    the sample set differs from the snapshot or the hard deadline is past. *)
Theorem failed_read_gives_sentinel :
  forall (cfg : MQTT_CONFIG) (t : Tick) (st st' : State),
    AM2322_read t = None ->
    mqttPublishSoftDeadline st < now_of t ->
    loop cfg t st = Some st' ->
    HUMIDITY (CURRENT st') = SENSOR_UNDEFINED_VALUE
    /\ TEMPERATURE (CURRENT st') = SENSOR_UNDEFINED_VALUE
    /\ (builtin_keys_free cfg ->
        payloads (fun p =>
                    json_get "humidity" p = Some SENSOR_UNDEFINED_VALUE
                    /\ json_get "temperature" p = Some SENSOR_UNDEFINED_VALUE)
          (events_since st st'))
    /\ (forall am, exists st2,
          loop cfg (with_AM2322 am t) st = Some st2
          /\ (forall s, switch_value s (CURRENT st2) = switch_value s (CURRENT st'))
          /\ mqttClient_connected st2 = mqttClient_connected st')
    /\ (hasChanged (CURRENT st') (PREVIOUS st)
        || (mqttPublishHardDeadline st <? now_of t) = true ->
        existsb is_publish (events_since st st') = true).
Proof.
  intros cfg t st st' Ham Hgate Hl.
  pose proof (loop_publishes_iff_due _ _ _ _ Hl) as Hpub.
  destruct (loop_events _ _ _ _ Hl) as (st1 & evs & Hsvc & -> & Hs & Hno & Hev).
  pose proof Hs as (Hsoft & _ & Hc & _ & _).
  apply Z.ltb_lt in Hgate.
  assert (Hcur : CURRENT (scheduler cfg t st1) = read_sensors cfg t (CURRENT st)).
  { rewrite scheduler_current, Hsoft, Hgate, Hc. reflexivity. }
  destruct (read_sensors_failed cfg t (CURRENT st) Ham) as [Hh Ht].
  split; [rewrite Hcur; exact Hh|]. split; [rewrite Hcur; exact Ht|].
  split; [|split].
  - intros Hfree n tp p ok Hin. rewrite Hev in Hin.
    apply in_app_or in Hin. destruct Hin as [Hin|Hin].
    + exfalso. assert (Hex : existsb is_publish evs = true)
        by (apply existsb_exists; eexists; split; [exact Hin|reflexivity]).
      congruence.
    + destruct (due cfg t st); [|destruct Hin].
      destruct Hin as [Hin|[]]. injection Hin as _ _ <- _.
      destruct (fill_json_builtin cfg (read_sensors cfg t (CURRENT st))
                  (jsonBuffer st) Hfree) as [Gh Gt].
      rewrite Gh, Gt, Hh, Ht. split; reflexivity.
  - intros am. exists (scheduler cfg (with_AM2322 am t) st1).
    split; [|split].
    + unfold loop.
      change (service_connection (with_AM2322 am t) st)
        with (service_connection t st).
      rewrite Hsvc. reflexivity.
    + intros s. rewrite !scheduler_current.
      change (now_of (with_AM2322 am t)) with (now_of t).
      destruct (mqttPublishSoftDeadline st1 <? now_of t);
        [apply read_sensors_switches | reflexivity].
    + rewrite !scheduler_connected. reflexivity.
  - intros Hdue. rewrite Hpub. unfold due.
    rewrite Hgate. rewrite Hcur in Hdue. rewrite Hdue. reflexivity.
Qed.

Lemma failed_read_gives_sentinel_witness :
  AM2322_read (tick_at 5000 (only_high GPIO_SW0) None) = None
  /\ mqttPublishSoftDeadline boot < now_of (tick_at 5000 (only_high GPIO_SW0) None)
  /\ exists st',
       loop cfg_tilt (tick_at 5000 (only_high GPIO_SW0) None) boot = Some st'
       /\ HUMIDITY (CURRENT st') = SENSOR_UNDEFINED_VALUE
       /\ TEMPERATURE (CURRENT st') = SENSOR_UNDEFINED_VALUE
       /\ builtin_keys_free cfg_tilt
       /\ payloads (fun p =>
                      json_get "humidity" p = Some SENSOR_UNDEFINED_VALUE
                      /\ json_get "temperature" p = Some SENSOR_UNDEFINED_VALUE)
            (events_since boot st')
       /\ existsb is_publish (events_since boot st') = true.
Proof.
  split; [reflexivity|]. split; [vm_compute; reflexivity|].
  eexists. split; [vm_compute; reflexivity|].
  pose proof (failed_read_gives_sentinel cfg_tilt
                (tick_at 5000 (only_high GPIO_SW0) None) boot _
                eq_refl eq_refl eq_refl) as H.
  assert (Hfree : builtin_keys_free cfg_tilt)
    by (intros []; split; discriminate).
  split; [apply H|]. split; [apply H|]. split; [exact Hfree|].
  split; [apply H; exact Hfree|]. apply H. vm_compute. reflexivity.
Defined.

(** C7 as stated fails: with switch 0 bound to the property name humidity,
    the AM2322 read fails, the humidity channel of the sample set is 999,
    and the published message carries the level of the switch under the key
    humidity. *)
Lemma failed_read_humidity_key_overwritten :
  exists st' payload,
    loop cfg_clash (tick_at 5000 all_high None) boot = Some st'
    /\ HUMIDITY (CURRENT st') = 999
    /\ events_since boot st'
       = [MqttConnect true; MqttPublish 5000 (topic cfg_clash) payload true]
    /\ payload = [("humidity"%string, 1); ("temperature"%string, 999)]
    /\ json_get "humidity" payload <> Some 999.
Proof.
  eexists. eexists. split; [vm_compute; reflexivity|].
  split; [reflexivity|]. split; [vm_compute; reflexivity|].
  split; [reflexivity|]. vm_compute. discriminate.
Qed.

(** ** The two deadlines *)

Lemma run_invariant_on (R : Tick -> Prop) (P : State -> Prop) (cfg : MQTT_CONFIG) :
  (forall t st st', R t -> P st -> loop cfg t st = Some st' -> P st') ->
  forall ticks st0 st,
    Forall R ticks -> P st0 -> run cfg ticks st0 = Some st -> P st.
Proof.
  intros Hstep ticks. induction ticks as [|t rest IH]; intros st0 st HR H0.
  - intros [= <-]. exact H0.
  - simpl. destruct (loop cfg t st0) as [st1|] eqn:Hl; [|discriminate].
    inversion HR; subst. apply IH; [assumption|]. eapply Hstep; eauto.
Qed.

Lemma publish_times_no_publish (evs : list Event) :
  existsb is_publish evs = false -> publish_times evs = [].
Proof.
  induction evs as [|e rest IH]; [reflexivity|].
  destruct e; cbn; intros H; try discriminate; apply IH; exact H.
Qed.

Lemma scheduler_soft (cfg : MQTT_CONFIG) (t : Tick) (st : State) :
  mqttPublishSoftDeadline (scheduler cfg t st)
  = if mqttPublishSoftDeadline st <? now_of t
    then Long.add (now_of t) MQTT_PUBLISH_SOFT_INTERVAL
    else mqttPublishSoftDeadline st.
Proof.
  unfold scheduler.
  destruct (_ <? _); [destruct (_ || _)|]; reflexivity.
Qed.

Lemma in_range_add_soft (t : Tick) :
  in_range t -> Long.add (now_of t) MQTT_PUBLISH_SOFT_INTERVAL = millis t + 3000.
Proof.
  intros H. rewrite (now_in_range t H). unfold in_range in H.
  unfold MQTT_PUBLISH_SOFT_INTERVAL, MQTT_PUBLISH_HARD_INTERVAL, Long.MAX in *.
  apply add_in_range. unfold Long.MIN, Long.MAX. lia.
Qed.

Lemma in_range_add_hard (t : Tick) :
  in_range t -> Long.add (now_of t) MQTT_PUBLISH_HARD_INTERVAL = millis t + 30000.
Proof.
  intros H. rewrite (now_in_range t H). unfold in_range in H.
  unfold MQTT_PUBLISH_HARD_INTERVAL, Long.MAX in *.
  apply add_in_range. unfold Long.MIN, Long.MAX. lia.
Qed.

(** The publish times a completed call of [loop()] leaves behind. *)
Lemma loop_publish_times (cfg : MQTT_CONFIG) (t : Tick) (st st' : State) :
  loop cfg t st = Some st' ->
  publish_times (trace st')
  = publish_times (trace st) ++ (if due cfg t st then [now_of t] else []).
Proof.
  intros Hl. rewrite (loop_trace_extends _ _ _ _ Hl), publish_times_app.
  destruct (loop_events _ _ _ _ Hl) as (st1 & evs & _ & _ & _ & Hno & ->).
  rewrite publish_times_app, (publish_times_no_publish _ Hno).
  destruct (due cfg t st); reflexivity.
Qed.

Lemma loop_soft (cfg : MQTT_CONFIG) (t : Tick) (st st' : State) :
  loop cfg t st = Some st' ->
  mqttPublishSoftDeadline st'
  = if mqttPublishSoftDeadline st <? now_of t
    then Long.add (now_of t) MQTT_PUBLISH_SOFT_INTERVAL
    else mqttPublishSoftDeadline st.
Proof.
  intros Hl.
  destruct (loop_events _ _ _ _ Hl) as (st1 & evs & _ & -> & Hs & _ & _).
  destruct Hs as (Hsoft & _). rewrite scheduler_soft, Hsoft. reflexivity.
Qed.

Lemma loop_hard (cfg : MQTT_CONFIG) (t : Tick) (st st' : State) :
  loop cfg t st = Some st' ->
  mqttPublishHardDeadline st'
  = if due cfg t st
    then Long.add (now_of t) MQTT_PUBLISH_HARD_INTERVAL
    else mqttPublishHardDeadline st.
Proof.
  intros Hl.
  destruct (loop_events _ _ _ _ Hl) as (st1 & evs & _ & -> & Hs & _ & _).
  rewrite <- (due_same_schedule cfg t st st1 Hs).
  pose proof (scheduler_snapshot cfg t st1) as Hsnap.
  destruct Hs as (_ & Hh & _).
  destruct (due cfg t st1); destruct Hsnap as [_ Hhard]; rewrite Hhard; auto.
Qed.

Lemma spaced_snoc (d : Z) (l : list Z) (x : Z) :
  spaced d l -> Forall (fun a => d < x - a) l -> spaced d (l ++ [x]).
Proof.
  unfold spaced. induction 1 as [|a l Ha Hl IH]; intros HF.
  - cbn. constructor; [constructor | constructor].
  - inversion HF; subst. cbn. constructor.
    + apply Forall_app. split; [exact Ha|]. constructor; [assumption|constructor].
    + apply IH. assumption.
Qed.

Lemma spaced_tail (d a : Z) (l : list Z) : spaced d (a :: l) -> spaced d l.
Proof. unfold spaced. intros H. inversion H; assumption. Qed.

Lemma spaced_head (d a b : Z) (l : list Z) : spaced d (a :: b :: l) -> d < b - a.
Proof.
  unfold spaced. intros H. inversion H as [|? ? Hhead _]; subst.
  inversion Hhead; assumption.
Qed.

(** While the clock stays in range, every publish lies at least one soft
    interval before the soft deadline, and the publishes are more than one
    soft interval apart. *)
Lemma throttle_invariant (cfg : MQTT_CONFIG) (ticks : list Tick) (st : State) :
  Forall in_range ticks ->
  run cfg ticks boot = Some st ->
  spaced MQTT_PUBLISH_SOFT_INTERVAL (publish_times (trace st))
  /\ Forall (fun tp => tp + MQTT_PUBLISH_SOFT_INTERVAL <= mqttPublishSoftDeadline st)
       (publish_times (trace st)).
Proof.
  intros HR.
  apply (run_invariant_on in_range
           (fun st =>
              spaced MQTT_PUBLISH_SOFT_INTERVAL (publish_times (trace st))
              /\ Forall (fun tp => tp + MQTT_PUBLISH_SOFT_INTERVAL
                                   <= mqttPublishSoftDeadline st)
                   (publish_times (trace st))) cfg); [|exact HR|].
  - intros t s0 s1 Hin [Hsp Hle] Hl.
    rewrite (loop_publish_times _ _ _ _ Hl), (loop_soft _ _ _ _ Hl).
    unfold due. rewrite (in_range_add_soft t Hin), (now_in_range t Hin).
    unfold MQTT_PUBLISH_SOFT_INTERVAL in *.
    destruct (mqttPublishSoftDeadline s0 <? millis t) eqn:Hgate; cbn [andb].
    + apply Z.ltb_lt in Hgate.
      assert (Hold : Forall (fun tp => tp + 3000 <= millis t + 3000)
                       (publish_times (trace s0))).
      { eapply Forall_impl; [|exact Hle]. cbn. intros; lia. }
      destruct (_ || _).
      * split.
        -- apply spaced_snoc; [exact Hsp|].
           eapply Forall_impl; [|exact Hle]. cbn. intros; lia.
        -- apply Forall_app. split; [exact Hold|].
           constructor; [lia|constructor].
      * rewrite app_nil_r. split; assumption.
    + rewrite app_nil_r. split; assumption.
  - split; [constructor|constructor].
Qed.

(** The throttle while the clock stays in range: with every clock value
    between 0 and [Long.MAX - MQTT_PUBLISH_HARD_INTERVAL], any two publishes
    are more than 3000 ms apart, whatever the inputs do. *)
Lemma throttle_holds_in_range :
  forall (cfg : MQTT_CONFIG) (ticks : list Tick) (st : State),
    Forall in_range ticks ->
    run cfg ticks boot = Some st ->
    spaced 3000 (publish_times (trace st)).
Proof.
  intros cfg ticks st HR Hrun.
  apply (throttle_invariant cfg ticks st HR Hrun).
Qed.

(** C3 at a failing input: 24.8 days after boot the clock comes within 3000
    ms of [Long.MAX].  The call at 2147482000 publishes and sets the soft
    deadline to [now + 3000], which wraps to a negative value; the call one
    millisecond later passes the gate again, sees switch 0 changed and
    publishes: two publishes 1 ms apart. *)
Theorem rollover_defeats_throttle :
  exists st,
    run cfg_tilt
      [tick_at 5000 all_low (Some (22, 45));
       tick_at 2147482000 (only_high GPIO_SW0) (Some (22, 45));
       tick_at 2147482001 all_low (Some (22, 45))] boot = Some st
    /\ publish_times (trace st) = [5000; 2147482000; 2147482001]
    /\ mqttPublishSoftDeadline st = -2147482295
    /\ ~ spaced 3000 (publish_times (trace st)).
Proof.
  eexists. split; [vm_compute; reflexivity|].
  split; [vm_compute; reflexivity|]. split; [vm_compute; reflexivity|].
  intros Hsp. apply spaced_tail, spaced_head in Hsp. lia.
Qed.

(** The same from any state: a sampling pass during the last 3000 ms before
    [Long.MAX] leaves a soft deadline that lies before the pass itself, so
    the gate stays open for the calls that follow. *)
Lemma soft_deadline_wraps (cfg : MQTT_CONFIG) (t : Tick) (st st' : State) :
  Long.MAX - MQTT_PUBLISH_SOFT_INTERVAL < millis t <= Long.MAX ->
  mqttPublishSoftDeadline st < millis t ->
  loop cfg t st = Some st' ->
  mqttPublishSoftDeadline st' = millis t + MQTT_PUBLISH_SOFT_INTERVAL - 2 ^ 32
  /\ mqttPublishSoftDeadline st' < millis t.
Proof.
  unfold MQTT_PUBLISH_SOFT_INTERVAL, Long.MAX. intros Hlate Hgate Hl.
  assert (Hnow : now_of t = millis t).
  { apply wrap_in_range. unfold Long.MIN, Long.MAX. lia. }
  rewrite (loop_soft _ _ _ _ Hl), Hnow.
  apply Z.ltb_lt in Hgate. rewrite Hgate.
  unfold Long.add, Long.wrap, MQTT_PUBLISH_SOFT_INTERVAL.
  replace (millis t + 3000 + 2 ^ 31)
    with (millis t + 3000 - 2 ^ 31 + 1 * 2 ^ 32) by lia.
  rewrite Z_mod_plus_full, Z.mod_small by lia. lia.
Qed.

Lemma heartbeat_invariant (cfg : MQTT_CONFIG) (ticks : list Tick) (st : State) :
  Forall in_range ticks ->
  run cfg ticks boot = Some st ->
  mqttPublishSoftDeadline st
    <= mqttPublishHardDeadline st + MQTT_PUBLISH_SOFT_INTERVAL
  /\ (forall pre tp,
        publish_times (trace st) = pre ++ [tp] ->
        mqttPublishHardDeadline st = tp + MQTT_PUBLISH_HARD_INTERVAL).
Proof.
  intros HR.
  apply (run_invariant_on in_range
           (fun st =>
              mqttPublishSoftDeadline st
                <= mqttPublishHardDeadline st + MQTT_PUBLISH_SOFT_INTERVAL
              /\ (forall pre tp,
                    publish_times (trace st) = pre ++ [tp] ->
                    mqttPublishHardDeadline st = tp + MQTT_PUBLISH_HARD_INTERVAL))
           cfg); [|exact HR|].
  - intros t s0 s1 Hin [Hle Hlast] Hl.
    rewrite (loop_publish_times _ _ _ _ Hl), (loop_soft _ _ _ _ Hl),
      (loop_hard _ _ _ _ Hl).
    unfold due. rewrite (in_range_add_soft t Hin), (in_range_add_hard t Hin),
      (now_in_range t Hin).
    unfold MQTT_PUBLISH_SOFT_INTERVAL, MQTT_PUBLISH_HARD_INTERVAL in *.
    destruct (mqttPublishSoftDeadline s0 <? millis t) eqn:Hgate; cbn [andb].
    + destruct (hasChanged _ _); cbn [orb].
      * split; [lia|]. intros pre tp Heq.
        apply app_inj_tail in Heq. destruct Heq as [_ <-]. reflexivity.
      * destruct (mqttPublishHardDeadline s0 <? millis t) eqn:Hhard.
        -- split; [lia|]. intros pre tp Heq.
           apply app_inj_tail in Heq. destruct Heq as [_ <-]. reflexivity.
        -- apply Z.ltb_ge in Hhard. split; [lia|].
           rewrite app_nil_r. exact Hlast.
    + split; [exact Hle|]. rewrite app_nil_r. exact Hlast.
  - split; [cbn; unfold MQTT_PUBLISH_SOFT_INTERVAL; lia|].
    intros pre tp Heq. cbn in Heq. destruct pre; discriminate.
Qed.

(** C4, as the code has it, while the clock stays between 0 and
    [Long.MAX - MQTT_PUBLISH_HARD_INTERVAL]: a call of [loop()] that runs
    with [now] past the soft and the hard deadline publishes, changed values
    or not.  A call whose [now] is not past the soft deadline neither
    samples nor publishes and leaves both deadlines, the sample sets and the
    document as they are, also when [now] is past the hard deadline: the
    hard deadline is tested only behind the soft one.  The soft deadline is
    never more than 3000 ms later than the hard one, and the hard deadline
    lies 30000 ms after the clock value that the call of the last publish
    has read at its start.  So a call that runs more than 3000 ms past the
    hard deadline publishes in any case. *)
Theorem heartbeat_behind_soft_deadline :
  forall (cfg : MQTT_CONFIG) (ticks : list Tick) (t : Tick) (st st' : State),
    Forall in_range ticks ->
    run cfg ticks boot = Some st ->
    loop cfg t st = Some st' ->
    (mqttPublishSoftDeadline st < now_of t ->
     mqttPublishHardDeadline st < now_of t ->
     existsb is_publish (events_since st st') = true)
    /\ (now_of t <= mqttPublishSoftDeadline st ->
        same_schedule st st'
        /\ existsb is_publish (events_since st st') = false)
    /\ mqttPublishSoftDeadline st
         <= mqttPublishHardDeadline st + MQTT_PUBLISH_SOFT_INTERVAL
    /\ (mqttPublishHardDeadline st + MQTT_PUBLISH_SOFT_INTERVAL < now_of t ->
        existsb is_publish (events_since st st') = true)
    /\ (forall pre tp,
          publish_times (trace st) = pre ++ [tp] ->
          mqttPublishHardDeadline st = tp + MQTT_PUBLISH_HARD_INTERVAL).
Proof.
  intros cfg ticks t st st' HR Hrun Hl.
  destruct (heartbeat_invariant cfg ticks st HR Hrun) as [Hle Hlast].
  assert (Hboth : mqttPublishSoftDeadline st < now_of t ->
                  mqttPublishHardDeadline st < now_of t ->
                  existsb is_publish (events_since st st') = true).
  { intros Hs Hh. rewrite (loop_publishes_iff_due _ _ _ _ Hl). unfold due.
    apply Z.ltb_lt in Hs, Hh. rewrite Hs, Hh, orb_true_r. reflexivity. }
  assert (Hidle : now_of t <= mqttPublishSoftDeadline st ->
                  same_schedule st st'
                  /\ existsb is_publish (events_since st st') = false).
  { intros Hearly. apply Z.ltb_ge in Hearly. split.
    - destruct (loop_events _ _ _ _ Hl) as (st1 & evs & _ & -> & Hs & _ & _).
      pose proof Hs as (Hsoft & _).
      unfold scheduler. rewrite Hsoft, Hearly. exact Hs.
    - rewrite (loop_publishes_iff_due _ _ _ _ Hl). unfold due.
      rewrite Hearly. reflexivity. }
  split; [exact Hboth|]. split; [exact Hidle|]. split; [exact Hle|].
  split; [|exact Hlast].
  intros Hlate. unfold MQTT_PUBLISH_SOFT_INTERVAL in *. apply Hboth; lia.
Qed.

Lemma heartbeat_behind_soft_deadline_witness :
  Forall in_range (steady_ticks 10 5000 3001 all_low (Some (22, 45)))
  /\ exists st st' st'',
       run cfg_plain (steady_ticks 10 5000 3001 all_low (Some (22, 45))) boot
       = Some st
       /\ loop cfg_plain (tick_at 35005 all_low (Some (22, 45))) st = Some st'
       /\ mqttPublishHardDeadline st
          < now_of (tick_at 35005 all_low (Some (22, 45)))
          <= mqttPublishSoftDeadline st
       /\ same_schedule st st'
       /\ existsb is_publish (events_since st st') = false
       /\ loop cfg_plain (tick_at 38001 all_low (Some (22, 45))) st = Some st''
       /\ mqttPublishHardDeadline st + MQTT_PUBLISH_SOFT_INTERVAL
          < now_of (tick_at 38001 all_low (Some (22, 45)))
       /\ existsb is_publish (events_since st st'') = true.
Proof.
  assert (HR : Forall in_range (steady_ticks 10 5000 3001 all_low (Some (22, 45)))).
  { repeat constructor; vm_compute; discriminate. }
  split; [exact HR|].
  eexists. eexists. eexists.
  split; [vm_compute; reflexivity|].
  match goal with
  | |- loop _ _ ?s = _ /\ _ => set (s0 := s)
  end.
  assert (Hrun : run cfg_plain (steady_ticks 10 5000 3001 all_low (Some (22, 45)))
                   boot = Some s0) by (vm_compute; reflexivity).
  split; [vm_compute; reflexivity|].
  assert (Hbetween : mqttPublishHardDeadline s0
                     < now_of (tick_at 35005 all_low (Some (22, 45)))
                     <= mqttPublishSoftDeadline s0)
    by (vm_compute; split; [reflexivity|discriminate]).
  split; [exact Hbetween|].
  match goal with
  | |- same_schedule _ ?s /\ _ => set (s1 := s)
  end.
  assert (Hl1 : loop cfg_plain (tick_at 35005 all_low (Some (22, 45))) s0 = Some s1)
    by (vm_compute; reflexivity).
  pose proof (heartbeat_behind_soft_deadline cfg_plain _
                (tick_at 35005 all_low (Some (22, 45))) s0 s1 HR Hrun Hl1)
    as (_ & Hidle & _).
  destruct (Hidle (proj2 Hbetween)) as [Hsame Hnone].
  split; [exact Hsame|]. split; [exact Hnone|].
  split; [vm_compute; reflexivity|].
  assert (Hlate : mqttPublishHardDeadline s0 + MQTT_PUBLISH_SOFT_INTERVAL
                  < now_of (tick_at 38001 all_low (Some (22, 45))))
    by (vm_compute; reflexivity).
  split; [exact Hlate|].
  match goal with
  | |- existsb is_publish (events_since _ ?s) = true => set (s2 := s)
  end.
  assert (Hl2 : loop cfg_plain (tick_at 38001 all_low (Some (22, 45))) s0 = Some s2)
    by (vm_compute; reflexivity).
  pose proof (heartbeat_behind_soft_deadline cfg_plain _
                (tick_at 38001 all_low (Some (22, 45))) s0 s2 HR Hrun Hl2)
    as (_ & _ & _ & Hpub & _).
  exact (Hpub Hlate).
Defined.

(** C4 as stated fails: after the publish at 5000 the values never change
    and the sampling passes follow each other 3001 ms apart.  The call at
    35005 runs with [now] past the hard deadline 35000 and publishes nothing,
    the soft deadline 35009 not being reached; the next publish is the one at
    35010, more than 30000 ms after the previous one. *)
Lemma heartbeat_waits_for_soft_deadline :
  exists st st' st'',
    run cfg_plain (steady_ticks 10 5000 3001 all_low (Some (22, 45))) boot
    = Some st
    /\ publish_times (trace st) = [5000]
    /\ mqttPublishSoftDeadline st = 35009
    /\ mqttPublishHardDeadline st = 35000
    /\ loop cfg_plain (tick_at 35005 all_low (Some (22, 45))) st = Some st'
    /\ mqttPublishHardDeadline st
       < now_of (tick_at 35005 all_low (Some (22, 45)))
    /\ events_since st st' = []
    /\ loop cfg_plain (tick_at 35010 all_low (Some (22, 45))) st' = Some st''
    /\ publish_times (trace st'') = [5000; 35010].
Proof.
  eexists. eexists. eexists.
  split; [vm_compute; reflexivity|].
  split; [vm_compute; reflexivity|].
  split; [vm_compute; reflexivity|].
  split; [vm_compute; reflexivity|].
  split; [vm_compute; reflexivity|].
  split; [vm_compute; reflexivity|].
  split; [vm_compute; reflexivity|].
  split; [vm_compute; reflexivity|].
  vm_compute. reflexivity.
Qed.

(** Outside that range the heartbeat can stop: a sampling pass at
    [Long.MAX - 3000] sets the soft deadline to [Long.MAX], which no later
    value of a [long] clock exceeds. *)
Lemma rollover_can_stall_heartbeat :
  exists st,
    run cfg_plain
      [tick_at 5000 all_low (Some (22, 45));
       tick_at 2147453000 all_low (Some (22, 45));
       tick_at 2147480647 all_low (Some (22, 45));
       tick_at 2147483647 all_low (Some (22, 45));
       tick_at 2147483648 all_low (Some (22, 45));
       tick_at 4294967295 all_low (Some (22, 45));
       tick_at 100000 all_low (Some (22, 45))] boot = Some st
    /\ mqttPublishSoftDeadline st = Long.MAX
    /\ publish_times (trace st) = [5000; 2147453000].
Proof.
  eexists. split; [vm_compute; reflexivity|]. split; vm_compute; reflexivity.
Qed.

(** ** Further properties of the control loop *)

Lemma hasChanged_false_eq (a b : Samples) : hasChanged a b = false -> a = b.
Proof.
  unfold hasChanged. intros H.
  repeat (apply orb_false_elim in H; destruct H as [H ?]).
  repeat match goal with
         | E : negb (_ =? _) = false |- _ =>
             apply negb_false_iff, Z.eqb_eq in E
         end.
  destruct a, b; cbn in *; congruence.
Qed.

(** X1: between two calls of [loop()] the previous snapshot always equals
    the current sample set: a call that samples either publishes and copies
    the samples into the snapshot, or has found them equal to it. *)
Theorem current_equals_previous_between_calls :
  forall (cfg : MQTT_CONFIG) (ticks : list Tick) (st : State),
    run cfg ticks boot = Some st -> CURRENT st = PREVIOUS st.
Proof.
  intros cfg.
  intros ticks st. apply (run_invariant (fun st => CURRENT st = PREVIOUS st) cfg).
  - intros t s0 s1 Heq Hl.
    destruct (loop_events _ _ _ _ Hl) as (st1 & evs & _ & -> & Hs & _ & _).
    destruct Hs as (_ & _ & Hc & Hp & _).
    unfold scheduler.
    destruct (mqttPublishSoftDeadline st1 <? now_of t); [|congruence].
    destruct (hasChanged (read_sensors cfg t (CURRENT st1)) (PREVIOUS st1)
              || (mqttPublishHardDeadline st1 <? now_of t)) eqn:Hdue;
      cbn [CURRENT PREVIOUS]; [reflexivity|].
    apply orb_false_elim in Hdue. destruct Hdue as [Hsame _].
    apply hasChanged_false_eq. exact Hsame.
  - reflexivity.
Qed.

Lemma current_equals_previous_between_calls_witness :
  exists st,
    run cfg_tilt [tick_at 5000 (only_high GPIO_SW0) (Some (22, 45));
                  tick_unsent 9000 all_low None;
                  tick_at 12500 all_low None] boot = Some st
    /\ CURRENT st = PREVIOUS st.
Proof.
  eexists. split; [vm_compute; reflexivity|].
  apply (current_equals_previous_between_calls cfg_tilt
           [tick_at 5000 (only_high GPIO_SW0) (Some (22, 45));
            tick_unsent 9000 all_low None;
            tick_at 12500 all_low None]).
  vm_compute. reflexivity.
Defined.

(** X2: a call of [loop()] whose clock value has not passed the soft
    deadline reads no sensor and publishes nothing: the deadlines, both
    sample sets and the document are as before. *)
Theorem throttled_call_is_idle :
  forall (cfg : MQTT_CONFIG) (t : Tick) (st st' : State),
    now_of t <= mqttPublishSoftDeadline st ->
    loop cfg t st = Some st' ->
    same_schedule st st'
    /\ existsb is_publish (events_since st st') = false.
Proof.
  intros cfg t st st' Hearly Hl.
  assert (Hdue : due cfg t st = false).
  { unfold due. apply Z.ltb_ge in Hearly. rewrite Hearly. reflexivity. }
  split.
  - destruct (loop_events _ _ _ _ Hl) as (st1 & evs & _ & -> & Hs & _ & _).
    pose proof Hs as (Hsoft & _).
    unfold scheduler. apply Z.ltb_ge in Hearly. rewrite Hsoft, Hearly. exact Hs.
  - rewrite (loop_publishes_iff_due _ _ _ _ Hl). exact Hdue.
Qed.

Lemma throttled_call_is_idle_witness :
  exists st st',
    run cfg_tilt [tick_at 5000 all_low (Some (22, 45))] boot = Some st
    /\ now_of (tick_at 7999 all_high None) <= mqttPublishSoftDeadline st
    /\ loop cfg_tilt (tick_at 7999 all_high None) st = Some st'
    /\ same_schedule st st'
    /\ existsb is_publish (events_since st st') = false.
Proof.
  eexists. eexists. split; [vm_compute; reflexivity|].
  split; [vm_compute; discriminate|].
  split; [vm_compute; reflexivity|].
  apply (throttled_call_is_idle cfg_tilt (tick_at 7999 all_high None)).
  - vm_compute. discriminate.
  - vm_compute. reflexivity.
Defined.

Lemma connect_to_mqtt_shape (results : list bool) (st st1 : State) :
  mqttClient_connected st = false ->
  connect_to_mqtt results st = Some st1 ->
  exists k rest,
    results = repeat false k ++ true :: rest
    /\ trace st1
       = trace st ++ List.concat (repeat failed_attempt k) ++ [MqttConnect true].
Proof.
  revert st. induction results as [|r rest IH]; intros st Hdown.
  - simpl. rewrite Hdown. discriminate.
  - destruct r.
    + cbn [connect_to_mqtt]. rewrite Hdown.
      rewrite connect_to_mqtt_connected by reflexivity.
      intros [= <-]. exists O, rest. split; reflexivity.
    + rewrite connect_to_mqtt_fails_first by exact Hdown. intros Hrun.
      apply IH in Hrun; [|exact Hdown].
      destruct Hrun as (k & rest' & -> & Htr).
      exists (S k), rest'. split; [reflexivity|].
      rewrite Htr. cbn [emit trace List.concat repeat failed_attempt].
      rewrite <- !app_assoc. reflexivity.
Qed.

Lemma service_connection_session (t : Tick) (st st1 : State) :
  service_connection t st = Some st1 ->
  mqttClient_connected st1 = session_alive t.
Proof.
  unfold service_connection.
  destruct (mqttClient_connected st) eqn:Hc.
  - intros [= <-]. cbn. rewrite Hc. reflexivity.
  - destruct (connect_to_mqtt (connect_results t) st) as [st0|] eqn:Hconn;
      [|discriminate].
    intros [= <-]. apply connect_to_mqtt_frame in Hconn.
    destruct Hconn as (_ & Hup & _). cbn. rewrite Hup. reflexivity.
Qed.

Lemma service_connection_trace (t : Tick) (st st1 : State) :
  service_connection t st = Some st1 ->
  exists k,
    trace st1
    = trace st ++
        (if mqttClient_connected st then []
         else List.concat (repeat failed_attempt k) ++ [MqttConnect true]).
Proof.
  unfold service_connection.
  destruct (mqttClient_connected st) eqn:Hc.
  - intros [= <-]. exists O. cbn. rewrite app_nil_r. reflexivity.
  - destruct (connect_to_mqtt (connect_results t) st) as [st0|] eqn:Hconn;
      [|discriminate].
    intros [= <-].
    destruct (connect_to_mqtt_shape _ _ _ Hc Hconn) as (k & rest & _ & Htr).
    exists k. cbn. exact Htr.
Qed.

(** X3: what one call of [loop()] does towards the broker, in order: when
    it is entered without a session, some failed connect attempts, each
    followed by a wait of 5000 ms, and one successful attempt; then at most
    one publish, stamped with the clock value read at the start of the call,
    sent to the configured topic, and successful only if the session has
    survived [mqttClient.loop()] and the transmission went through.  Entered
    with a session, the call makes no connect attempt and does not wait. *)
Theorem events_of_a_call :
  forall (cfg : MQTT_CONFIG) (t : Tick) (st st' : State),
    loop cfg t st = Some st' ->
    exists k,
      events_since st st'
      = (if mqttClient_connected st then []
         else List.concat (repeat failed_attempt k) ++ [MqttConnect true])
        ++ (if due cfg t st
            then [MqttPublish (now_of t) (topic cfg)
                    (fill_json cfg (read_sensors cfg t (CURRENT st)) (jsonBuffer st))
                    (session_alive t && publish_sent t)]
            else []).
Proof.
  intros cfg t st st' Hl.
  destruct (loop_events _ _ _ _ Hl) as (st1 & evs & Hsvc & -> & Hs & _ & _).
  destruct (service_connection_trace _ _ _ Hsvc) as [k Htr].
  exists k. apply events_since_app.
  rewrite scheduler_trace, Htr, <- app_assoc.
  rewrite (due_same_schedule cfg t st st1 Hs).
  rewrite (service_connection_session _ _ _ Hsvc).
  destruct Hs as (_ & _ & Hc & _ & Hj). rewrite Hc, Hj. reflexivity.
Qed.

Lemma events_of_a_call_witness :
  exists st',
    loop cfg_plain
      {| millis := 5000; connect_results := [false; false; true];
         session_alive := false; digitalRead := all_low;
         AM2322_read := Some (22, 45); publish_sent := true |} boot = Some st'
    /\ exists k,
         events_since boot st'
         = (List.concat (repeat failed_attempt k) ++ [MqttConnect true])
           ++ [MqttPublish 5000 (topic cfg_plain)
                 [("humidity"%string, 45); ("temperature"%string, 22)] false].
Proof.
  eexists. split; [vm_compute; reflexivity|].
  apply (events_of_a_call cfg_plain
           {| millis := 5000; connect_results := [false; false; true];
              session_alive := false; digitalRead := all_low;
              AM2322_read := Some (22, 45); publish_sent := true |} boot).
  vm_compute. reflexivity.
Defined.

(** X4: a completed call of [loop()] leaves the session as
    [mqttClient.loop()] found it.  A session found dropped is not rebuilt
    before the scheduler runs, so the publish of that call, if any, fails;
    the reconnect is left to the next call. *)
Theorem session_after_a_call :
  forall (cfg : MQTT_CONFIG) (t : Tick) (st st' : State),
    loop cfg t st = Some st' ->
    mqttClient_connected st' = session_alive t
    /\ (session_alive t = false ->
        forall now to_topic payload ok,
          In (MqttPublish now to_topic payload ok) (events_since st st') ->
          ok = false).
Proof.
  intros cfg t st st' Hl. split.
  - destruct (loop_events _ _ _ _ Hl) as (st1 & evs & Hsvc & -> & _).
    rewrite scheduler_connected. apply (service_connection_session _ _ _ Hsvc).
  - intros Hdrop n tp p ok Hin.
    destruct (loop_events _ _ _ _ Hl) as (st1 & evs & Hsvc & _ & _ & Hno & Hev).
    rewrite Hev in Hin. apply in_app_or in Hin. destruct Hin as [Hin|Hin].
    + exfalso. assert (Hex : existsb is_publish evs = true)
        by (apply existsb_exists; eexists; split; [exact Hin|reflexivity]).
      congruence.
    + destruct (due cfg t st); [|destruct Hin].
      destruct Hin as [Hin|[]]. injection Hin as _ _ _ <-.
      rewrite (service_connection_session _ _ _ Hsvc), Hdrop. reflexivity.
Qed.

Lemma session_after_a_call_witness :
  exists st',
    loop cfg_plain
      {| millis := 5000; connect_results := [true];
         session_alive := false; digitalRead := all_low;
         AM2322_read := Some (22, 45); publish_sent := true |} boot = Some st'
    /\ mqttClient_connected st' = false
    /\ events_since boot st'
       = [MqttConnect true;
          MqttPublish 5000 (topic cfg_plain)
            [("humidity"%string, 45); ("temperature"%string, 22)] false].
Proof.
  eexists. split; [vm_compute; reflexivity|].
  split.
  - apply (session_after_a_call cfg_plain
             {| millis := 5000; connect_results := [true];
                session_alive := false; digitalRead := all_low;
                AM2322_read := Some (22, 45); publish_sent := true |} boot).
    vm_compute. reflexivity.
  - vm_compute. reflexivity.
Defined.

(** ** Timing of the publishes *)

(** X5: the clock value of a call is the one it reads at its start (line
    355), before [connect_to_mqtt] may hold it up.  While these values stay
    in range, a call that publishes although the samples equal the snapshot
    has read a clock value more than 30000 ms above the one read by the
    call of the previous publish.  Nothing is said of the instants at which
    the two messages leave the node. *)
Theorem heartbeat_clock_values_apart :
  forall (cfg : MQTT_CONFIG) (ticks : list Tick) (t : Tick) (st st' : State)
         (pre : list Z) (tp : Z),
    Forall in_range ticks ->
    run cfg ticks boot = Some st ->
    loop cfg t st = Some st' ->
    publish_times (trace st) = pre ++ [tp] ->
    hasChanged (read_sensors cfg t (CURRENT st)) (PREVIOUS st) = false ->
    existsb is_publish (events_since st st') = true ->
    tp + MQTT_PUBLISH_HARD_INTERVAL < now_of t.
Proof.
  intros cfg ticks t st st' pre tp HR Hrun Hl Hlast Hsame Hpub.
  destruct (heartbeat_invariant cfg ticks st HR Hrun) as [_ Hhard].
  rewrite <- (Hhard pre tp Hlast).
  rewrite (loop_publishes_iff_due _ _ _ _ Hl) in Hpub.
  unfold due in Hpub. rewrite Hsame in Hpub.
  apply andb_true_iff in Hpub. destruct Hpub as [_ Hpub].
  cbn [orb] in Hpub. apply Z.ltb_lt in Hpub. exact Hpub.
Qed.

Lemma heartbeat_clock_values_apart_witness :
  Forall in_range (steady_ticks 10 5000 3001 all_low (Some (22, 45)))
  /\ exists st st',
       run cfg_plain (steady_ticks 10 5000 3001 all_low (Some (22, 45))) boot
       = Some st
       /\ loop cfg_plain (tick_at 35010 all_low (Some (22, 45))) st = Some st'
       /\ publish_times (trace st) = [] ++ [5000]
       /\ hasChanged
            (read_sensors cfg_plain (tick_at 35010 all_low (Some (22, 45)))
               (CURRENT st)) (PREVIOUS st) = false
       /\ existsb is_publish (events_since st st') = true
       /\ 5000 + MQTT_PUBLISH_HARD_INTERVAL
          < now_of (tick_at 35010 all_low (Some (22, 45))).
Proof.
  assert (HR : Forall in_range (steady_ticks 10 5000 3001 all_low (Some (22, 45)))).
  { repeat constructor; vm_compute; discriminate. }
  split; [exact HR|].
  eexists. eexists. split; [vm_compute; reflexivity|].
  match goal with
  | |- loop _ _ ?s = _ /\ _ => set (s0 := s)
  end.
  split; [vm_compute; reflexivity|].
  split; [vm_compute; reflexivity|].
  split; [vm_compute; reflexivity|].
  match goal with
  | |- existsb is_publish (events_since _ ?s) = true /\ _ => set (s1 := s)
  end.
  split; [vm_compute; reflexivity|].
  apply (heartbeat_clock_values_apart cfg_plain
           (steady_ticks 10 5000 3001 all_low (Some (22, 45)))
           (tick_at 35010 all_low (Some (22, 45))) s0 s1 [] 5000 HR);
    vm_compute; reflexivity.
Defined.

(** ** More on the broker connection *)

(** X6: [connect_to_mqtt] returns exactly when it is entered with a session
    or one of the connect attempts succeeds; it returns on the first success
    and leaves the later results unused. *)
Theorem connect_to_mqtt_returns_iff :
  forall (results : list bool) (st : State),
    (exists st', connect_to_mqtt results st = Some st')
    <-> (mqttClient_connected st = true \/ In true results).
Proof.
  intros results st. split.
  - intros [st' Hrun]. destruct (mqttClient_connected st) eqn:Hc; [auto|].
    right. destruct (connect_to_mqtt_shape _ _ _ Hc Hrun) as (k & rest & -> & _).
    apply in_or_app. right. left. reflexivity.
  - intros [Hc|Hin].
    + exists st. apply connect_to_mqtt_connected. exact Hc.
    + apply connect_to_mqtt_returns. exact Hin.
Qed.

(** X7: when [connect_to_mqtt] returns, the session is up and nothing but
    the session and the trace has changed.  Entered with a session it does
    nothing at all; entered without one, the results it has consumed are
    some failures and one success, and its events are one connect attempt
    and one wait of 5000 ms per failure and the successful attempt. *)
Theorem connect_to_mqtt_effect :
  forall (results : list bool) (st st' : State),
    connect_to_mqtt results st = Some st' ->
    same_schedule st st'
    /\ mqttClient_connected st' = true
    /\ (mqttClient_connected st = true -> st' = st)
    /\ (mqttClient_connected st = false ->
        exists k rest,
          results = repeat false k ++ true :: rest
          /\ events_since st st'
             = List.concat (repeat failed_attempt k) ++ [MqttConnect true]).
Proof.
  intros results st st' Hrun.
  destruct (connect_to_mqtt_frame _ _ _ Hrun) as (Hs & Hup & _).
  split; [exact Hs|]. split; [exact Hup|]. split.
  - intros Hc. rewrite (connect_to_mqtt_connected results st Hc) in Hrun.
    congruence.
  - intros Hc.
    destruct (connect_to_mqtt_shape _ _ _ Hc Hrun) as (k & rest & Hres & Htr).
    exists k, rest. split; [exact Hres|]. apply events_since_app. exact Htr.
Qed.

Lemma connect_to_mqtt_effect_witness :
  exists st',
    connect_to_mqtt [false; true; false] boot = Some st'
    /\ same_schedule boot st'
    /\ mqttClient_connected st' = true.
Proof.
  eexists. split; [vm_compute; reflexivity|].
  pose proof (connect_to_mqtt_effect [false; true; false] boot _ eq_refl) as H.
  split; apply H.
Defined.

(** ** Sampling and the published document *)

Lemma json_set_NoDup (k : string) (v : Z) (doc : JsonDocument) :
  NoDup (json_keys doc) -> NoDup (json_keys (json_set k v doc)).
Proof.
  induction doc as [|[k0 v0] rest IH]; simpl; intros Hnd.
  - constructor; [intros []|constructor].
  - inversion Hnd as [|? ? Hnotin Hrest]; subst.
    destruct (String.eqb k0 k) eqn:E; simpl.
    + apply String.eqb_eq in E. subst k0. constructor; assumption.
    + constructor; [|apply IH; exact Hrest].
      intros Hin. apply json_set_keys in Hin. destruct Hin as [->|Hin].
      * rewrite String.eqb_refl in E. discriminate.
      * contradiction.
Qed.

Lemma json_set_builtin_first (k : string) (v : Z) (doc : JsonDocument) :
  builtin_first doc -> builtin_first (json_set k v doc).
Proof.
  intros (h & t & rest & ->). unfold builtin_first. cbn [json_set].
  destruct (String.eqb "humidity" k) eqn:Eh.
  - apply String.eqb_eq in Eh. subst k. eauto.
  - destruct (String.eqb "temperature" k) eqn:Et.
    + apply String.eqb_eq in Et. subst k. eauto.
    + eauto.
Qed.

Lemma fill_json_NoDup (cfg : MQTT_CONFIG) (cur : Samples) (doc : JsonDocument) :
  NoDup (json_keys doc) -> NoDup (json_keys (fill_json cfg cur doc)).
Proof.
  intros Hnd. unfold fill_json.
  repeat match goal with
         | |- context [nonzero (strlen ?n)] => destruct (nonzero (strlen n))
         end;
    repeat apply json_set_NoDup; exact Hnd.
Qed.

Lemma fill_json_builtin_first (cfg : MQTT_CONFIG) (cur : Samples)
  (doc : JsonDocument) :
  doc = [] \/ builtin_first doc -> builtin_first (fill_json cfg cur doc).
Proof.
  intros Hdoc.
  assert (Hbase : builtin_first
            (json_set "temperature" (TEMPERATURE cur)
               (json_set "humidity" (HUMIDITY cur) doc))).
  { destruct Hdoc as [->|Hb].
    - cbn. unfold builtin_first. eauto.
    - repeat apply json_set_builtin_first. exact Hb. }
  unfold fill_json.
  remember (json_set "temperature" (TEMPERATURE cur)
              (json_set "humidity" (HUMIDITY cur) doc)) as base eqn:Ebase.
  clear Ebase.
  repeat match goal with
         | |- context [nonzero (strlen ?n)] => destruct (nonzero (strlen n))
         end;
    repeat apply json_set_builtin_first; exact Hbase.
Qed.

Lemma allowed_keys_bounded (cfg : MQTT_CONFIG) (doc : JsonDocument) :
  NoDup (json_keys doc) ->
  (forall k, In k (json_keys doc) -> allowed_key cfg k) ->
  (List.length doc <= 6)%nat.
Proof.
  intros Hnd Hall.
  assert (Hincl : incl (json_keys doc)
                    ["humidity"%string; "temperature"%string;
                     propertyname0 cfg; propertyname1 cfg;
                     propertyname2 cfg; propertyname3 cfg]).
  { intros k Hin. destruct (Hall k Hin) as [->|[->|[s [<- _]]]].
    - simpl. auto.
    - simpl. auto.
    - destruct s; simpl; auto 7. }
  pose proof (NoDup_incl_length Hnd Hincl) as Hlen.
  unfold json_keys in Hlen. rewrite length_map in Hlen. exact Hlen.
Qed.

(** The document between two calls: empty before the first publish, and
    from then on a duplicate-free object that begins with the two built-in
    members. *)
Lemma document_invariant (cfg : MQTT_CONFIG) (ticks : list Tick) (st : State) :
  run cfg ticks boot = Some st ->
  NoDup (json_keys (jsonBuffer st))
  /\ (jsonBuffer st = [] \/ builtin_first (jsonBuffer st)).
Proof.
  apply (run_invariant
           (fun st => NoDup (json_keys (jsonBuffer st))
                      /\ (jsonBuffer st = [] \/ builtin_first (jsonBuffer st)))
           cfg).
  - intros t s0 s1 [Hnd Hshape] Hl.
    destruct (loop_events _ _ _ _ Hl) as (st1 & evs & _ & -> & Hs & _ & _).
    destruct Hs as (_ & _ & _ & _ & Hj).
    unfold scheduler.
    destruct (_ <? _); [destruct (_ || _)|]; cbn [jsonBuffer]; rewrite ?Hj;
      try (split; assumption).
    split; [apply fill_json_NoDup; exact Hnd|].
    right. apply fill_json_builtin_first. exact Hshape.
  - split; [constructor | left; reflexivity].
Qed.

(** Once a publish has been attempted the document is no longer empty. *)
Lemma document_after_publish (cfg : MQTT_CONFIG) (ticks : list Tick) (st : State) :
  run cfg ticks boot = Some st ->
  (publish_times (trace st) = [] -> jsonBuffer st = [])
  /\ (publish_times (trace st) <> [] -> builtin_first (jsonBuffer st)).
Proof.
  intros Hrun.
  assert (Hshape : forall st, run cfg ticks boot = Some st ->
                              jsonBuffer st = [] \/ builtin_first (jsonBuffer st))
    by (intros st0 H0; apply (document_invariant cfg ticks st0 H0)).
  revert st Hrun Hshape.
  induction ticks as [|t rest IH] using rev_ind; intros st Hrun Hshape.
  - injection Hrun as <-. split; [reflexivity|]. intros H. exfalso. apply H. reflexivity.
  - assert (Hsplit : exists s0, run cfg rest boot = Some s0
                                /\ loop cfg t s0 = Some st).
    { clear IH Hshape. revert Hrun. generalize boot.
      induction rest as [|u rest IH]; intros b; simpl.
      - destruct (loop cfg t b) as [s|] eqn:E; [|discriminate].
        intros [= <-]. exists b. auto.
      - destruct (loop cfg u b) as [s|]; [|discriminate]. apply IH. }
    destruct Hsplit as (s0 & Hrun0 & Hl).
    destruct (IH s0 Hrun0) as [Hnone Hsome].
    { intros st0 H0. apply (document_invariant cfg rest st0 H0). }
    pose proof (document_invariant cfg rest s0 Hrun0) as [_ Hs0].
    rewrite (loop_publish_times _ _ _ _ Hl).
    destruct (loop_events _ _ _ _ Hl) as (st1 & evs & _ & -> & Hs & _ & _).
    destruct Hs as (Hsoft & Hhard & Hc & Hp & Hj).
    unfold due, scheduler. rewrite Hsoft, Hhard, Hc, Hp, Hj.
    destruct (mqttPublishSoftDeadline s0 <? now_of t); cbn [andb].
    + destruct (hasChanged _ _ || _); cbn [jsonBuffer]; rewrite ?Hj.
      * split.
        -- intros H. apply app_eq_nil in H. destruct H as [_ H]. discriminate.
        -- intros _. apply fill_json_builtin_first. exact Hs0.
      * rewrite app_nil_r. split; assumption.
    + rewrite app_nil_r, Hj. split; assumption.
Qed.

(** X8: the JSON document that line 385 serializes is a global that is
    never cleared.  Between two calls of [loop()] it is empty as long as no
    publish has been attempted, and from the first attempt on it is an
    object of at most six members with pairwise different keys, the first
    two being humidity and temperature in this order, and every other key a
    non-empty property name of the configuration.  (The text built from it
    is cut to the 128 bytes of [mqttStatusMessage]; this property is about
    the document, not about that text.) *)
Theorem document_stays_bounded :
  forall (cfg : MQTT_CONFIG) (ticks : list Tick) (st : State),
    run cfg ticks boot = Some st ->
    NoDup (json_keys (jsonBuffer st))
    /\ (List.length (jsonBuffer st) <= 6)%nat
    /\ (forall k, In k (json_keys (jsonBuffer st)) -> allowed_key cfg k)
    /\ (publish_times (trace st) = [] -> jsonBuffer st = [])
    /\ (publish_times (trace st) <> [] -> builtin_first (jsonBuffer st)).
Proof.
  intros cfg ticks st Hrun.
  destruct (document_invariant cfg ticks st Hrun) as [Hnd _].
  destruct (keys_allowed_invariant cfg ticks st Hrun) as [Hall _].
  destruct (document_after_publish cfg ticks st Hrun) as [Hnone Hsome].
  split; [exact Hnd|]. split; [apply (allowed_keys_bounded cfg); assumption|].
  split; [exact Hall|]. split; assumption.
Qed.

Lemma document_stays_bounded_witness :
  exists st,
    run cfg_tilt [tick_at 5000 all_low (Some (22, 45));
                  tick_at 9000 all_high None] boot = Some st
    /\ List.length (jsonBuffer st) = 6%nat
    /\ NoDup (json_keys (jsonBuffer st))
    /\ builtin_first (jsonBuffer st).
Proof.
  eexists. split; [vm_compute; reflexivity|].
  split; [vm_compute; reflexivity|].
  match goal with
  | |- NoDup (json_keys (jsonBuffer ?s)) /\ _ => set (s0 := s)
  end.
  assert (Hrun : run cfg_tilt [tick_at 5000 all_low (Some (22, 45));
                               tick_at 9000 all_high None] boot = Some s0)
    by (vm_compute; reflexivity).
  destruct (document_stays_bounded cfg_tilt _ s0 Hrun)
    as (Hnd & _ & _ & _ & Hfirst).
  split; [exact Hnd|]. apply Hfirst. vm_compute. discriminate.
Defined.





Lemma fill_json_all_disabled (cfg : MQTT_CONFIG) (cur : Samples)
  (doc : JsonDocument) :
  (forall s, propertyname cfg s = EmptyString) ->
  doc = [] \/ (exists h t, doc = [("humidity"%string, h); ("temperature"%string, t)]) ->
  fill_json cfg cur doc
  = [("humidity"%string, HUMIDITY cur); ("temperature"%string, TEMPERATURE cur)].
Proof.
  intros Hoff Hdoc. unfold fill_json.
  pose proof (Hoff Sw0) as H0. pose proof (Hoff Sw1) as H1.
  pose proof (Hoff Sw2) as H2. pose proof (Hoff Sw3) as H3.
  cbn [propertyname] in *. rewrite H0, H1, H2, H3. cbn [strlen String.length nonzero Nat.eqb negb].
  destruct Hdoc as [->|(h & t & ->)]; reflexivity.
Qed.

Lemma document_all_disabled (cfg : MQTT_CONFIG) (ticks : list Tick) (st : State) :
  (forall s, propertyname cfg s = EmptyString) ->
  run cfg ticks boot = Some st ->
  jsonBuffer st = []
  \/ (exists h t,
        jsonBuffer st = [("humidity"%string, h); ("temperature"%string, t)]).
Proof.
  intros Hoff.
  apply (run_invariant
           (fun st => jsonBuffer st = []
                      \/ (exists h t, jsonBuffer st
                            = [("humidity"%string, h); ("temperature"%string, t)]))
           cfg).
  - intros t s0 s1 Hdoc Hl.
    destruct (loop_events _ _ _ _ Hl) as (st1 & evs & _ & -> & Hs & _ & _).
    destruct Hs as (_ & _ & _ & _ & Hj).
    unfold scheduler.
    destruct (_ <? _); [destruct (_ || _)|]; cbn [jsonBuffer]; rewrite ?Hj;
      try assumption.
    right. rewrite (fill_json_all_disabled cfg _ _ Hoff Hdoc). eauto.
  - left. reflexivity.
Qed.

(** X10: with all four property names empty, every message a call of
    [loop()] publishes is exactly the object of the two members humidity and
    temperature, in this order, holding the values that call has sampled. *)
Theorem all_disabled_payload :
  forall (cfg : MQTT_CONFIG) (ticks : list Tick) (t : Tick) (st st' : State),
    (forall s, propertyname cfg s = EmptyString) ->
    run cfg ticks boot = Some st ->
    loop cfg t st = Some st' ->
    payloads (fun p => p = [("humidity"%string, HUMIDITY (CURRENT st'));
                            ("temperature"%string, TEMPERATURE (CURRENT st'))])
      (events_since st st').
Proof.
  intros cfg ticks t st st' Hoff Hrun Hl n tp p ok Hin.
  pose proof (document_all_disabled cfg ticks st Hoff Hrun) as Hdoc.
  destruct (loop_events _ _ _ _ Hl) as (st1 & evs & _ & -> & Hs & Hno & Hev).
  rewrite Hev in Hin. apply in_app_or in Hin. destruct Hin as [Hin|Hin].
  - exfalso. assert (Hex : existsb is_publish evs = true)
      by (apply existsb_exists; eexists; split; [exact Hin|reflexivity]).
    congruence.
  - destruct (due cfg t st) eqn:Hdue; [|destruct Hin].
    destruct Hin as [Hin|[]]. injection Hin as _ _ <- _.
    unfold due in Hdue. apply andb_true_iff in Hdue. destruct Hdue as [Hgate _].
    destruct Hs as (Hsoft & _ & Hc & _ & _).
    rewrite scheduler_current, Hsoft, Hgate, Hc.
    apply fill_json_all_disabled; assumption.
Qed.

Lemma all_disabled_payload_witness :
  (forall s, propertyname cfg_plain s = EmptyString)
  /\ exists st st',
       run cfg_plain [tick_at 5000 all_low None] boot = Some st
       /\ loop cfg_plain (tick_at 9000 all_low (Some (22, 45))) st = Some st'
       /\ payloads (fun p => p = [("humidity"%string, HUMIDITY (CURRENT st'));
                                  ("temperature"%string, TEMPERATURE (CURRENT st'))])
            (events_since st st').
Proof.
  assert (Hoff : forall s, propertyname cfg_plain s = EmptyString)
    by (intros []; reflexivity).
  split; [exact Hoff|].
  eexists. eexists. split; [vm_compute; reflexivity|].
  split; [vm_compute; reflexivity|].
  apply (all_disabled_payload cfg_plain [tick_at 5000 all_low None]
           (tick_at 9000 all_low (Some (22, 45))) _ _ Hoff);
    vm_compute; reflexivity.
Defined.

(** ** [setup_wifi] *)

Lemma setup_wifi_poll_waits (k : nat) (rest : list bool) (tr : list Event) :
  setup_wifi_poll (repeat false k ++ true :: rest) tr
  = Some (tr ++ repeat (Delay 500) k).
Proof.
  revert tr. induction k as [|k IH]; intros tr.
  - cbn. rewrite app_nil_r. reflexivity.
  - cbn [repeat app setup_wifi_poll]. rewrite IH, <- app_assoc. reflexivity.
Qed.

Lemma setup_wifi_poll_goes_on (k : nat) (tr : list Event) :
  setup_wifi_poll (repeat false k) tr = None.
Proof.
  revert tr. induction k as [|k IH]; intros tr; [reflexivity|].
  cbn [repeat setup_wifi_poll]. apply IH.
Qed.

(** X11: [setup_wifi] waits 10 ms once and then 500 ms after every poll
    that does not report [WL_CONNECTED]; it returns at the first poll that
    does, and as long as none does it has not returned. *)
Theorem setup_wifi_waits :
  forall (k : nat) (rest : list bool) (tr : list Event),
    setup_wifi (repeat false k ++ true :: rest) tr
    = Some (tr ++ Delay 10 :: repeat (Delay 500) k)
    /\ setup_wifi (repeat false k) tr = None.
Proof.
  intros k rest tr. unfold setup_wifi. split.
  - rewrite setup_wifi_poll_waits, <- app_assoc. reflexivity.
  - apply setup_wifi_poll_goes_on.
Qed.

(** ** The module identifier *)

(** X12: for every MAC address the module identifier has 24 characters
    and the default topic 31: with their terminators both fit the buffers
    [moduleId[40]] and [defaultTopic[60]], and the default topic fits the 40
    characters of the portal field it is the default of. *)
Theorem moduleId_fits :
  forall macAddress : MacAddress,
    strlen (moduleId_of macAddress) = 24%nat
    /\ (strlen (moduleId_of macAddress) + 1 <= MODULE_ID_SIZE)%nat
    /\ strlen (defaultTopic_of (moduleId_of macAddress)) = 31%nat
    /\ (strlen (defaultTopic_of (moduleId_of macAddress)) + 1
        <= DEFAULT_TOPIC_SIZE)%nat
    /\ (strlen (defaultTopic_of (moduleId_of macAddress))
        <= TOPIC_FIELD_LENGTH)%nat.
Proof.
  intros m.
  assert (H24 : strlen (moduleId_of m) = 24%nat) by reflexivity.
  assert (H31 : strlen (defaultTopic_of (moduleId_of m)) = 31%nat) by reflexivity.
  rewrite H24, H31. unfold MODULE_ID_SIZE, DEFAULT_TOPIC_SIZE, TOPIC_FIELD_LENGTH.
  repeat split; lia.
Qed.

Lemma parse_format_02x (b : Byte.byte) : parse_02x (format_02x b) = Some b.
Proof. destruct b; vm_compute; reflexivity. Qed.

Lemma format_02x_inj (b b' : Byte.byte) : format_02x b = format_02x b' -> b = b'.
Proof.
  intros H. apply (f_equal parse_02x) in H.
  rewrite !parse_format_02x in H. congruence.
Qed.

(** X13: the two digits printed for a byte read back as that byte, and
    different MAC addresses give different module identifiers. *)
Theorem moduleId_injective :
  (forall b, parse_02x (format_02x b) = Some b)
  /\ (forall m m' : MacAddress, moduleId_of m = moduleId_of m' -> m = m').
Proof.
  split; [exact parse_format_02x|].
  intros [a0 a1 a2 a3 a4 a5] [b0 b1 b2 b3 b4 b5] H.
  unfold moduleId_of, format_02x in H. cbn [append mac0 mac1 mac2 mac3 mac4 mac5] in H.
  injection H as H0h H0l H1h H1l H2h H2l H3h H3l H4h H4l H5h H5l.
  assert (E0 : a0 = b0) by (apply format_02x_inj; unfold format_02x; congruence).
  assert (E1 : a1 = b1) by (apply format_02x_inj; unfold format_02x; congruence).
  assert (E2 : a2 = b2) by (apply format_02x_inj; unfold format_02x; congruence).
  assert (E3 : a3 = b3) by (apply format_02x_inj; unfold format_02x; congruence).
  assert (E4 : a4 = b4) by (apply format_02x_inj; unfold format_02x; congruence).
  assert (E5 : a5 = b5) by (apply format_02x_inj; unfold format_02x; congruence).
  congruence.
Qed.

Lemma moduleId_injective_witness :
  moduleId_of {| mac0 := Byte.xa1; mac1 := Byte.xb2; mac2 := Byte.xc3;
                 mac3 := Byte.xd4; mac4 := Byte.xe5; mac5 := Byte.x0f |}
  = "MULTISENSOR-a1b2c3d4e50f"%string
  /\ {| mac0 := Byte.xa1; mac1 := Byte.xb2; mac2 := Byte.xc3;
        mac3 := Byte.xd4; mac4 := Byte.xe5; mac5 := Byte.x0f |}
     = {| mac0 := Byte.xa1; mac1 := Byte.xb2; mac2 := Byte.xc3;
          mac3 := Byte.xd4; mac4 := Byte.xe5; mac5 := Byte.x0f |}.
Proof.
  split; [vm_compute; reflexivity|].
  apply (proj2 moduleId_injective). reflexivity.
Defined.

(** ** The stored configuration *)

Lemma overwrite_length (address : nat) (bytes buffer : list Byte.byte) :
  (address + List.length bytes <= List.length buffer)%nat ->
  List.length (overwrite address bytes buffer) = List.length buffer.
Proof.
  intros H. unfold overwrite.
  rewrite !length_app, length_firstn, length_skipn. lia.
Qed.

Lemma overwrite_get (address : nat) (bytes buffer : list Byte.byte) :
  (address + List.length bytes <= List.length buffer)%nat ->
  firstn (List.length bytes) (skipn address (overwrite address bytes buffer))
  = bytes.
Proof.
  intros H. unfold overwrite.
  rewrite skipn_app, length_firstn.
  replace (address - Nat.min address (List.length buffer))%nat with 0%nat by lia.
  rewrite skipn_all2 by (rewrite length_firstn; lia).
  cbn [skipn app]. rewrite firstn_app, Nat.sub_diag, firstn_all.
  cbn [firstn]. apply app_nil_r.
Qed.

Lemma overwrite_nth_before (address i : nat) (bytes buffer : list Byte.byte)
  (d : Byte.byte) :
  (i < address)%nat -> (address <= List.length buffer)%nat ->
  nth i (overwrite address bytes buffer) d = nth i buffer d.
Proof.
  intros Hi Ha. unfold overwrite.
  rewrite app_nth1 by (rewrite length_firstn; lia).
  apply nth_firstn_lt || (rewrite nth_firstn; apply Nat.ltb_lt in Hi; rewrite Hi; reflexivity).
Qed.

Lemma begin_length (n : nat) (e : EEPROMClass) :
  List.length (data (EEPROM_begin n e)) = n.
Proof. cbn. rewrite length_map, length_seq. reflexivity. Qed.

Lemma bytes_eqb_eq (a b : list Byte.byte) : bytes_eqb a b = true -> a = b.
Proof. unfold bytes_eqb. destruct (list_eq_dec _ a b); [auto|discriminate]. Qed.

Lemma byte_eqb_eq (a b : Byte.byte) : Byte.eqb a b = true <-> a = b.
Proof.
  split.
  - apply Byte.byte_dec_bl.
  - intros ->. apply Byte.byte_dec_lb. reflexivity.
Qed.

(** The RAM copy once [saveConfig] has written the test value and the
    configuration into it. *)
Lemma saveConfig_buffer (config : list Byte.byte) (e : EEPROMClass) :
  List.length config = sizeof_MQTT_CONFIG ->
  let e3 := EEPROM_put MQTT_CONFIG_STORAGE_ADDRESS config
              (EEPROM_write 0 STORAGE_TEST_VALUE (EEPROM_begin 512 e)) in
  List.length (data e3) = 512%nat
  /\ nth 0 (data e3) Byte.x00 = STORAGE_TEST_VALUE
  /\ firstn sizeof_MQTT_CONFIG (skipn MQTT_CONFIG_STORAGE_ADDRESS (data e3)) = config
  /\ flash e3 = flash e
  /\ (dirty e3 = false -> data e3 = map (flash e) (seq 0 512)).
Proof.
  intros Hlen.
  set (e1 := EEPROM_begin 512 e).
  assert (H1 : List.length (data e1) = 512%nat) by apply begin_length.
  set (e2 := EEPROM_write 0 STORAGE_TEST_VALUE e1).
  assert (H2 : List.length (data e2) = 512%nat
               /\ nth 0 (data e2) Byte.x00 = STORAGE_TEST_VALUE
               /\ flash e2 = flash e
               /\ (dirty e2 = false -> data e2 = map (flash e) (seq 0 512))).
  { unfold e2, EEPROM_write. rewrite H1. cbn [Nat.ltb Nat.leb].
    destruct (Byte.eqb (nth 0 (data e1) Byte.x00) STORAGE_TEST_VALUE) eqn:E.
    - apply byte_eqb_eq in E. repeat split; auto.
    - cbn [data flash dirty]. split.
      + rewrite overwrite_length; [exact H1|]. cbn. lia.
      + split; [|split; [reflexivity|discriminate]].
        unfold overwrite. cbn. reflexivity. }
  destruct H2 as (L2 & T2 & F2 & D2).
  cbv zeta. fold e1. fold e2.
  unfold EEPROM_put. rewrite L2, Hlen.
  unfold MQTT_CONFIG_STORAGE_ADDRESS, sizeof_MQTT_CONFIG in *.
  replace (1 + 224 <=? 512)%nat with true by reflexivity.
  destruct (bytes_eqb (firstn 224 (skipn 1 (data e2))) config) eqn:E.
  - apply bytes_eqb_eq in E. repeat split; auto.
  - cbn [data flash dirty].
    assert (Hfit : (1 + List.length config <= List.length (data e2))%nat)
      by (rewrite L2, Hlen; lia).
    split; [rewrite overwrite_length; assumption|].
    split; [rewrite overwrite_nth_before by lia; exact T2|].
    split; [rewrite <- Hlen; apply overwrite_get; exact Hfit|].
    split; [exact F2|discriminate].
Qed.

Lemma map_nth_seq (l : list Byte.byte) (d : Byte.byte) :
  map (fun a => nth a l d) (seq 0 (List.length l)) = l.
Proof.
  apply nth_ext with (d := d) (d' := d).
  - rewrite length_map, length_seq. reflexivity.
  - intros n Hn. rewrite length_map, length_seq in Hn.
    rewrite (nth_indep _ d (nth 0 l d)) by (rewrite length_map, length_seq; exact Hn).
    rewrite map_nth with (f := fun a => nth a l d) (d := 0%nat).
    rewrite seq_nth by exact Hn. reflexivity.
Qed.

(** What a later [begin(512)] reads once [saveConfig] is through, provided
    one of the two flash writes went through. *)
Lemma saveConfig_flash (p1 p2 : bool) (config : list Byte.byte) (e : EEPROMClass) :
  List.length config = sizeof_MQTT_CONFIG ->
  p1 || p2 = true ->
  let buffer := data (EEPROM_put MQTT_CONFIG_STORAGE_ADDRESS config
                        (EEPROM_write 0 STORAGE_TEST_VALUE (EEPROM_begin 512 e))) in
  map (flash (saveConfig p1 p2 config e)) (seq 0 512) = buffer.
Proof.
  intros Hlen Hp. cbv zeta.
  pose proof (saveConfig_buffer config e Hlen) as H. cbv zeta in H.
  unfold saveConfig.
  set (e3 := EEPROM_put MQTT_CONFIG_STORAGE_ADDRESS config
               (EEPROM_write 0 STORAGE_TEST_VALUE (EEPROM_begin 512 e))) in *.
  destruct H as (L3 & _ & _ & F3 & D3).
  assert (Hcommitted :
            map (fun a => if (a <? List.length (data e3))%nat
                          then nth a (data e3) Byte.x00 else flash e3 a)
              (seq 0 512) = data e3).
  { transitivity (map (fun a => nth a (data e3) Byte.x00)
                    (seq 0 (List.length (data e3))));
      [|apply map_nth_seq].
    rewrite L3. apply map_ext_in. intros a Ha. apply in_seq in Ha.
    replace (a <? 512)%nat with true; [reflexivity|].
    symmetry. apply Nat.ltb_lt. lia. }
  unfold EEPROM_end, EEPROM_commit. cbn [flash].
  destruct (dirty e3) eqn:Hd; cbn [andb].
  - destruct p1; cbn [flash dirty data andb].
    + exact Hcommitted.
    + cbn [orb] in Hp. subst p2. rewrite Hd. cbn [andb flash]. exact Hcommitted.
  - cbn [andb]. rewrite Hd. cbn [andb]. rewrite F3. symmetry. apply D3. reflexivity.
Qed.

Lemma firstn_seq_le (n start len : nat) :
  (n <= len)%nat -> firstn n (seq start len) = seq start n.
Proof.
  revert start len. induction n as [|n IH]; intros start len Hle; [reflexivity|].
  destruct len as [|len]; [lia|]. cbn [seq firstn]. rewrite IH by lia. reflexivity.
Qed.

Lemma loadConfig_after_saveConfig (p1 p2 : bool)
  (config target : list Byte.byte) (e : EEPROMClass) :
  List.length config = sizeof_MQTT_CONFIG ->
  List.length target = sizeof_MQTT_CONFIG ->
  p1 || p2 = true ->
  fst (loadConfig target (saveConfig p1 p2 config e)) = (true, config).
Proof.
  intros Hlen Htarget Hp.
  pose proof (saveConfig_flash p1 p2 config e Hlen Hp) as Hflash.
  pose proof (saveConfig_buffer config e Hlen) as Hbuf.
  cbv zeta in Hflash, Hbuf.
  set (buffer := data (EEPROM_put MQTT_CONFIG_STORAGE_ADDRESS config
                   (EEPROM_write 0 STORAGE_TEST_VALUE (EEPROM_begin 512 e)))) in *.
  destruct Hbuf as (L & T & G & _ & _).
  unfold loadConfig, EEPROM_read, EEPROM_get, EEPROM_begin. cbn [data].
  rewrite Hflash, T, L, Htarget.
  replace (Byte.eqb STORAGE_TEST_VALUE STORAGE_TEST_VALUE) with true
    by reflexivity.
  unfold MQTT_CONFIG_STORAGE_ADDRESS, sizeof_MQTT_CONFIG in *.
  replace (1 + 224 <=? 512)%nat with true by reflexivity.
  cbn [fst]. rewrite G. reflexivity.
Qed.

(** X14: once [saveConfig] is through and one of its two flash writes
    (in [commit()] or in [end()]) has succeeded, the flash holds the test
    value [0xAE] at offset 0 and the object from offset 1 on, and a
    [loadConfig] that follows returns [true] and that object. *)
Theorem saveConfig_then_loadConfig :
  forall (p1 p2 : bool) (config target : list Byte.byte) (e : EEPROMClass),
    List.length config = sizeof_MQTT_CONFIG ->
    List.length target = sizeof_MQTT_CONFIG ->
    p1 || p2 = true ->
    fst (loadConfig target (saveConfig p1 p2 config e)) = (true, config)
    /\ flash (saveConfig p1 p2 config e) 0%nat = STORAGE_TEST_VALUE
    /\ map (flash (saveConfig p1 p2 config e))
         (seq MQTT_CONFIG_STORAGE_ADDRESS sizeof_MQTT_CONFIG) = config.
Proof.
  intros p1 p2 config target e Hlen Htarget Hp.
  split; [apply loadConfig_after_saveConfig; assumption|].
  pose proof (saveConfig_flash p1 p2 config e Hlen Hp) as Hflash.
  pose proof (saveConfig_buffer config e Hlen) as Hbuf.
  cbv zeta in Hflash, Hbuf.
  set (buffer := data (EEPROM_put MQTT_CONFIG_STORAGE_ADDRESS config
                   (EEPROM_write 0 STORAGE_TEST_VALUE (EEPROM_begin 512 e)))) in *.
  destruct Hbuf as (_ & T & G & _ & _).
  rewrite <- Hflash in T, G.
  unfold MQTT_CONFIG_STORAGE_ADDRESS, sizeof_MQTT_CONFIG in *.
  change (seq 0 512) with (0%nat :: seq 1 511) in T, G.
  cbn [map nth skipn] in T, G.
  split; [exact T|].
  rewrite firstn_map, firstn_seq_le in G by lia. exact G.
Qed.

Lemma saveConfig_then_loadConfig_witness :
  List.length (overwrite 0 (String.list_byte_of_string "broker") zero_config)
  = sizeof_MQTT_CONFIG
  /\ List.length zero_config = sizeof_MQTT_CONFIG
  /\ false || true = true
  /\ fst (loadConfig zero_config
            (saveConfig false true
               (overwrite 0 (String.list_byte_of_string "broker") zero_config)
               erased_eeprom))
     = (true, overwrite 0 (String.list_byte_of_string "broker") zero_config).
Proof.
  split; [reflexivity|]. split; [reflexivity|]. split; [reflexivity|].
  apply (saveConfig_then_loadConfig false true
           (overwrite 0 (String.list_byte_of_string "broker") zero_config)
           zero_config erased_eeprom); reflexivity.
Defined.


(** [loadConfig] as one equation. *)
Lemma loadConfig_eq (config : list Byte.byte) (e : EEPROMClass) :
  List.length config = sizeof_MQTT_CONFIG ->
  loadConfig config e
  = (if Byte.eqb (flash e 0%nat) STORAGE_TEST_VALUE
     then (true, map (flash e) (seq MQTT_CONFIG_STORAGE_ADDRESS sizeof_MQTT_CONFIG))
     else (false, config),
     {| flash := flash e; data := []; dirty := false |}).
Proof.
  intros Hlen.
  unfold loadConfig, EEPROM_read, EEPROM_get, EEPROM_begin, EEPROM_end,
    EEPROM_commit.
  cbn [data dirty flash andb].
  change (seq 0 512) with (0%nat :: seq 1 511).
  cbn [map nth].
  destruct (Byte.eqb (flash e 0%nat) STORAGE_TEST_VALUE); [|reflexivity].
  rewrite Hlen. cbn [List.length]. rewrite length_map, length_seq.
  unfold MQTT_CONFIG_STORAGE_ADDRESS, sizeof_MQTT_CONFIG.
  replace (1 + 224 <=? S 511)%nat with true by reflexivity.
  cbn [skipn]. rewrite firstn_map, firstn_seq_le by lia. reflexivity.
Qed.

(** X15: [loadConfig] never changes the flash.  It returns [true] and the
    [sizeof(MQTT_CONFIG)] bytes stored from offset 1 on when the byte at
    offset 0 is the test value [0xAE], and otherwise returns [false] and
    leaves the configuration object as it was. *)
Theorem loadConfig_contract :
  forall (config : list Byte.byte) (e : EEPROMClass),
    List.length config = sizeof_MQTT_CONFIG ->
    flash (snd (loadConfig config e)) = flash e
    /\ data (snd (loadConfig config e)) = []
    /\ (flash e 0%nat = STORAGE_TEST_VALUE ->
        fst (loadConfig config e)
        = (true, map (flash e) (seq MQTT_CONFIG_STORAGE_ADDRESS sizeof_MQTT_CONFIG)))
    /\ (flash e 0%nat <> STORAGE_TEST_VALUE ->
        fst (loadConfig config e) = (false, config)).
Proof.
  intros config e Hlen. rewrite (loadConfig_eq config e Hlen). cbn [fst snd flash data].
  split; [reflexivity|]. split; [reflexivity|]. split.
  - intros Hmark. rewrite Hmark.
    replace (Byte.eqb STORAGE_TEST_VALUE STORAGE_TEST_VALUE) with true
      by reflexivity.
    reflexivity.
  - intros Hmark.
    destruct (Byte.eqb (flash e 0%nat) STORAGE_TEST_VALUE) eqn:E; [|reflexivity].
    apply byte_eqb_eq in E. contradiction.
Qed.

Lemma loadConfig_contract_witness :
  List.length zero_config = sizeof_MQTT_CONFIG
  /\ flash erased_eeprom 0%nat <> STORAGE_TEST_VALUE
  /\ fst (loadConfig zero_config erased_eeprom) = (false, zero_config).
Proof.
  split; [reflexivity|].
  assert (Hblank : flash erased_eeprom 0%nat <> STORAGE_TEST_VALUE) by discriminate.
  split; [exact Hblank|].
  apply (loadConfig_contract zero_config erased_eeprom); [reflexivity|exact Hblank].
Defined.

(** ** The configuration object *)

Lemma list_byte_of_string_length (s : string) :
  List.length (String.list_byte_of_string s) = String.length s.
Proof.
  unfold String.list_byte_of_string.
  rewrite length_map.
  induction s as [|c s IH]; [reflexivity|]. cbn. rewrite IH. reflexivity.
Qed.

Lemma until_nul_terminated (bs rest : list Byte.byte) :
  ~ In Byte.x00 bs -> until_nul (bs ++ Byte.x00 :: rest) = Some bs.
Proof.
  induction bs as [|b bs IH]; intros Hno.
  - reflexivity.
  - cbn [app until_nul].
    destruct (Byte.eqb b Byte.x00) eqn:E.
    + apply byte_eqb_eq in E. subst b. exfalso. apply Hno. left. reflexivity.
    + rewrite IH; [reflexivity|]. intros Hin. apply Hno. right. exact Hin.
Qed.

Lemma region_overwrite_same (offset size : nat) (bytes image : list Byte.byte) :
  (List.length bytes <= size)%nat ->
  (offset + List.length bytes <= List.length image)%nat ->
  firstn size (skipn offset (overwrite offset bytes image))
  = bytes ++ firstn (size - List.length bytes)
               (skipn (offset + List.length bytes) image).
Proof.
  intros Hsize Hfit. unfold overwrite.
  rewrite skipn_app, length_firstn.
  replace (offset - Nat.min offset (List.length image))%nat with 0%nat by lia.
  rewrite skipn_all2 by (rewrite length_firstn; lia).
  cbn [skipn app]. rewrite firstn_app.
  rewrite firstn_all2 by lia. reflexivity.
Qed.

Lemma region_overwrite_after (offset size offset' : nat)
  (bytes image : list Byte.byte) :
  (offset + size <= offset')%nat ->
  (offset' <= List.length image)%nat ->
  firstn size (skipn offset (overwrite offset' bytes image))
  = firstn size (skipn offset image).
Proof.
  intros Hbefore Hin. unfold overwrite.
  rewrite skipn_app, length_firstn.
  replace (offset - Nat.min offset' (List.length image))%nat with 0%nat by lia.
  cbn [skipn]. rewrite firstn_app.
  rewrite length_skipn, length_firstn.
  replace (size - (Nat.min offset' (List.length image) - offset))%nat
    with 0%nat by lia.
  cbn [firstn]. rewrite app_nil_r.
  rewrite skipn_firstn_comm, firstn_firstn.
  replace (Nat.min size (offset' - offset)) with size by lia. reflexivity.
Qed.

Lemma until_nul_firstn (n : nat) (l bs : list Byte.byte) :
  until_nul (firstn n l) = Some bs -> until_nul l = Some bs.
Proof.
  revert l bs. induction n as [|n IH]; intros l bs; [cbn; discriminate|].
  destruct l as [|b l]; cbn [firstn until_nul]; [discriminate|].
  destruct (Byte.eqb b Byte.x00); [trivial|].
  destruct (until_nul (firstn n l)) as [bs'|] eqn:E; cbn [option_map];
    [|discriminate].
  rewrite (IH l bs' E). trivial.
Qed.

(** A string that ends within its array is what [cstring_at] reads. *)
Lemma cstring_at_region (offset size : nat) (image : list Byte.byte)
  (value : string) :
  option_map String.string_of_list_byte
    (until_nul (firstn size (skipn offset image))) = Some value ->
  cstring_at offset image = Some value.
Proof.
  unfold cstring_at.
  destruct (until_nul (firstn size (skipn offset image))) as [bs|] eqn:E;
    cbn [option_map]; [|discriminate].
  rewrite (until_nul_firstn _ _ _ E). trivial.
Qed.

Lemma c_str_no_nul (l : list Byte.byte) : ~ In Byte.x00 l -> c_str l = l.
Proof.
  induction l as [|b l IH]; intros Hno; [reflexivity|].
  cbn [c_str]. destruct (Byte.eqb b Byte.x00) eqn:E.
  - apply byte_eqb_eq in E. subst b. exfalso. apply Hno. left. reflexivity.
  - rewrite IH; [reflexivity|]. intros Hin. apply Hno. right. exact Hin.
Qed.

Lemma overwrite_length_ge (address : nat) (bytes buffer : list Byte.byte) :
  (List.length buffer <= List.length (overwrite address bytes buffer))%nat.
Proof.
  unfold overwrite. rewrite !length_app, length_firstn, length_skipn. lia.
Qed.

(** The object keeps its size, whatever is copied into it. *)
Lemma strcpy_length (offset : nat) (value : string) (image : list Byte.byte) :
  List.length (strcpy offset value image) = List.length image.
Proof.
  unfold strcpy. rewrite length_firstn.
  pose proof (overwrite_length_ge offset
                (c_str (String.list_byte_of_string value) ++ [Byte.x00]) image).
  lia.
Qed.

Lemma strcpy_fits (offset size : nat) (value : string) (image : list Byte.byte) :
  fits size value ->
  (offset + size <= List.length image)%nat ->
  strcpy offset value image
  = overwrite offset (String.list_byte_of_string value ++ [Byte.x00]) image.
Proof.
  intros [Hl Hno] Hin. unfold strcpy, strlen in *.
  rewrite (c_str_no_nul _ Hno).
  apply firstn_all2. rewrite overwrite_length; [lia|].
  rewrite length_app, list_byte_of_string_length. cbn. lia.
Qed.

Lemma strcpy_effect (offset size : nat) (value : string)
  (image : list Byte.byte) :
  fits size value ->
  (offset + size <= List.length image)%nat ->
  List.length (strcpy offset value image) = List.length image
  /\ option_map String.string_of_list_byte
       (until_nul (firstn size (skipn offset (strcpy offset value image))))
     = Some value
  /\ (forall offset0 size0,
        (offset0 + size0 <= offset)%nat ->
        firstn size0 (skipn offset0 (strcpy offset value image))
        = firstn size0 (skipn offset0 image)).
Proof.
  intros Hfit Hin. rewrite (strcpy_fits offset size value image Hfit Hin).
  destruct Hfit as [Hl Hno]. unfold strlen in Hl.
  assert (Hlen : List.length (String.list_byte_of_string value ++ [Byte.x00])
                 = S (String.length value)).
  { rewrite length_app, list_byte_of_string_length. cbn. lia. }
  split; [apply overwrite_length; lia|]. split.
  - rewrite region_overwrite_same by lia.
    rewrite <- app_assoc. cbn [app].
    rewrite until_nul_terminated by exact Hno.
    cbn [option_map]. rewrite String.string_of_list_byte_of_string. reflexivity.
  - intros offset0 size0 Hbefore.
    apply region_overwrite_after; lia.
Qed.

Lemma Z_of_byte_of_Z (z : Z) : Z_of_byte (byte_of_Z z) = z mod 256.
Proof.
  unfold Z_of_byte, byte_of_Z.
  assert (Hr : 0 <= z mod 256 < 256) by (apply Z.mod_pos_bound; lia).
  destruct (Byte.of_N (Z.to_N (z mod 256))) as [b|] eqn:E.
  - apply Byte.to_of_N in E. rewrite E. apply Z2N.id. lia.
  - apply Byte.of_N_None_iff in E. lia.
Qed.

Lemma int_bytes_value (z : Z) :
  Long.MIN <= z <= Long.MAX ->
  match int_bytes z with
  | [b0; b1; b2; b3] =>
      Long.wrap (Z_of_byte b0 + 256 * Z_of_byte b1 + 65536 * Z_of_byte b2
                 + 16777216 * Z_of_byte b3)
  | _ => 0
  end = z.
Proof.
  unfold Long.MIN, Long.MAX. intros Hz. unfold int_bytes. cbv zeta.
  rewrite !Z_of_byte_of_Z. unfold Long.wrap.
  change (2 ^ 32) with 4294967296. change (2 ^ 31) with 2147483648 in *.
  Z.to_euclidean_division_equations. lia.
Qed.

Lemma saturate_in_range (z : Z) : Long.MIN <= saturate z <= Long.MAX.
Proof. unfold saturate, Long.MIN, Long.MAX. lia. Qed.

Lemma atoi_in_range (s : string) : Long.MIN <= atoi s <= Long.MAX.
Proof.
  unfold atoi. destruct (skip_spaces s) as [|c rest].
  - unfold Long.MIN, Long.MAX. lia.
  - destruct (_ =? 45)%N; [apply saturate_in_range|].
    destruct (_ =? 43)%N; apply saturate_in_range.
Qed.

Lemma overwrite_int_effect (offset : nat) (z : Z) (image : list Byte.byte) :
  (offset + 4 <= List.length image)%nat ->
  Long.MIN <= z <= Long.MAX ->
  List.length (overwrite offset (int_bytes z) image) = List.length image
  /\ int_field offset (overwrite offset (int_bytes z) image) = z
  /\ (forall offset0 size0,
        (offset0 + size0 <= offset)%nat ->
        firstn size0 (skipn offset0 (overwrite offset (int_bytes z) image))
        = firstn size0 (skipn offset0 image)).
Proof.
  intros Hin Hz.
  assert (Hlen : List.length (int_bytes z) = 4%nat) by reflexivity.
  split; [apply overwrite_length; lia|]. split.
  - unfold int_field. rewrite region_overwrite_same by lia.
    rewrite Hlen, Nat.sub_diag. cbn [firstn]. rewrite app_nil_r.
    apply int_bytes_value. exact Hz.
  - intros offset0 size0 Hbefore. apply region_overwrite_after; lia.
Qed.

(** Reads a region of the object through the later writes that lie
    entirely behind it. *)
Ltac peel_region off size P2 P3 P4 P5 P6 P7 P8 P9 Hside :=
  repeat first
    [ rewrite (P9 off size) by (apply Hside; reflexivity)
    | rewrite (P8 off size) by (apply Hside; reflexivity)
    | rewrite (P7 off size) by (apply Hside; reflexivity)
    | rewrite (P6 off size) by (apply Hside; reflexivity)
    | rewrite (P5 off size) by (apply Hside; reflexivity)
    | rewrite (P4 off size) by (apply Hside; reflexivity)
    | rewrite (P3 off size) by (apply Hside; reflexivity)
    | rewrite (P2 off size) by (apply Hside; reflexivity) ].

(** What [copy_parameters] leaves in the object when every value fits. *)
Lemma copy_parameters_spec (defaultTopic : string) (edits : PortalEdits)
  (image : list Byte.byte) :
  List.length image = sizeof_MQTT_CONFIG ->
  edits_fit defaultTopic edits ->
  List.length (copy_parameters defaultTopic edits image) = sizeof_MQTT_CONFIG
  /\ config_of_image (copy_parameters defaultTopic edits image)
     = Some (submitted_config defaultTopic edits).
Proof.
  intros Hlen (Fsn & Fun & Fpw & Ftp & F0 & F1 & F2 & F3).
  unfold copy_parameters. cbv zeta.
  unfold sizeof_MQTT_CONFIG in *.
  (* server name *)
  pose proof (strcpy_effect servername_offset servername_size _ image Fsn) as E1.
  set (i1 := strcpy servername_offset _ image) in *.
  destruct E1 as (S1 & D1 & _);
    [unfold servername_offset, servername_size; lia|].
  rewrite Hlen in S1.
  (* server port *)
  pose proof (overwrite_int_effect serverport_offset
                (atoi (getValue (edit_port edits) "1883")) i1) as E2.
  set (i2 := overwrite serverport_offset _ i1) in *.
  destruct E2 as (S2 & D2 & P2);
    [unfold serverport_offset; lia | apply atoi_in_range |].
  rewrite S1 in S2.
  (* user name *)
  pose proof (strcpy_effect username_offset username_size _ i2 Fun) as E3.
  set (i3 := strcpy username_offset _ i2) in *.
  destruct E3 as (S3 & D3 & P3);
    [unfold username_offset, username_size; lia|].
  rewrite S2 in S3.
  (* password *)
  pose proof (strcpy_effect password_offset password_size _ i3 Fpw) as E4.
  set (i4 := strcpy password_offset _ i3) in *.
  destruct E4 as (S4 & D4 & P4);
    [unfold password_offset, password_size; lia|].
  rewrite S3 in S4.
  (* topic *)
  pose proof (strcpy_effect topic_offset topic_size _ i4 Ftp) as E5.
  set (i5 := strcpy topic_offset _ i4) in *.
  destruct E5 as (S5 & D5 & P5);
    [unfold topic_offset, topic_size; lia|].
  rewrite S4 in S5.
  (* property names *)
  pose proof (strcpy_effect propertyname0_offset propertyname_size _ i5 F0) as E6.
  set (i6 := strcpy propertyname0_offset _ i5) in *.
  destruct E6 as (S6 & D6 & P6);
    [unfold propertyname0_offset, propertyname_size; lia|].
  rewrite S5 in S6.
  pose proof (strcpy_effect propertyname1_offset propertyname_size _ i6 F1) as E7.
  set (i7 := strcpy propertyname1_offset _ i6) in *.
  destruct E7 as (S7 & D7 & P7);
    [unfold propertyname1_offset, propertyname_size; lia|].
  rewrite S6 in S7.
  pose proof (strcpy_effect propertyname2_offset propertyname_size _ i7 F2) as E8.
  set (i8 := strcpy propertyname2_offset _ i7) in *.
  destruct E8 as (S8 & D8 & P8);
    [unfold propertyname2_offset, propertyname_size; lia|].
  rewrite S7 in S8.
  pose proof (strcpy_effect propertyname3_offset propertyname_size _ i8 F3) as E9.
  set (i9 := strcpy propertyname3_offset _ i8) in *.
  destruct E9 as (S9 & D9 & P9);
    [unfold propertyname3_offset, propertyname_size; lia|].
  rewrite S8 in S9.
  split; [exact S9|].
  assert (Hside : forall a b c : nat, (a + b <=? c)%nat = true -> (a + b <= c)%nat)
    by (intros a b c H; apply Nat.leb_le; exact H).
  assert (C1 : cstring_at servername_offset i9
               = Some (getValue (edit_server edits) EmptyString)).
  { apply (cstring_at_region _ servername_size).
    peel_region servername_offset servername_size P2 P3 P4 P5 P6 P7 P8 P9 Hside.
    exact D1. }
  assert (C3 : cstring_at username_offset i9
               = Some (getValue (edit_user edits) EmptyString)).
  { apply (cstring_at_region _ username_size).
    peel_region username_offset username_size P2 P3 P4 P5 P6 P7 P8 P9 Hside.
    exact D3. }
  assert (C4 : cstring_at password_offset i9
               = Some (getValue (edit_pass edits) EmptyString)).
  { apply (cstring_at_region _ password_size).
    peel_region password_offset password_size P2 P3 P4 P5 P6 P7 P8 P9 Hside.
    exact D4. }
  assert (C5 : cstring_at topic_offset i9
               = Some (getValue (edit_topic edits) defaultTopic)).
  { apply (cstring_at_region _ topic_size).
    peel_region topic_offset topic_size P2 P3 P4 P5 P6 P7 P8 P9 Hside.
    exact D5. }
  assert (C6 : cstring_at propertyname0_offset i9
               = Some (getValue (edit_prop0 edits) EmptyString)).
  { apply (cstring_at_region _ propertyname_size).
    peel_region propertyname0_offset propertyname_size P2 P3 P4 P5 P6 P7 P8 P9 Hside.
    exact D6. }
  assert (C7 : cstring_at propertyname1_offset i9
               = Some (getValue (edit_prop1 edits) EmptyString)).
  { apply (cstring_at_region _ propertyname_size).
    peel_region propertyname1_offset propertyname_size P2 P3 P4 P5 P6 P7 P8 P9 Hside.
    exact D7. }
  assert (C8 : cstring_at propertyname2_offset i9
               = Some (getValue (edit_prop2 edits) EmptyString)).
  { apply (cstring_at_region _ propertyname_size).
    peel_region propertyname2_offset propertyname_size P2 P3 P4 P5 P6 P7 P8 P9 Hside.
    exact D8. }
  assert (C9 : cstring_at propertyname3_offset i9
               = Some (getValue (edit_prop3 edits) EmptyString)).
  { apply (cstring_at_region _ propertyname_size). exact D9. }
  assert (C2 : int_field serverport_offset i9
               = atoi (getValue (edit_port edits) "1883")).
  { unfold int_field in *.
    peel_region serverport_offset 4%nat P2 P3 P4 P5 P6 P7 P8 P9 Hside.
    exact D2. }
  unfold config_of_image, submitted_config.
  rewrite C1, C2, C3, C4, C5, C6, C7, C8, C9.
  reflexivity.
Qed.

(** ** [setup()] *)

Lemma loaded_image_length (e : EEPROMClass) :
  List.length
    (snd (if Byte.eqb (flash e 0%nat) STORAGE_TEST_VALUE
          then (true, map (flash e) (seq MQTT_CONFIG_STORAGE_ADDRESS sizeof_MQTT_CONFIG))
          else (false, zero_config)))
  = sizeof_MQTT_CONFIG.
Proof.
  destruct (Byte.eqb _ _); cbn [snd].
  - rewrite length_map, length_seq. reflexivity.
  - reflexivity.
Qed.

(** X16: a configuration submitted in the portal, each value of which
    fits its character array, is stored before the result of
    [autoConnect] is looked at: whether [setup()] then restarts the node,
    stops for want of the sensor or returns, the object holds the values
    submitted (fields left untouched in the portal take the defaults empty,
    "1883" and [<moduleId>/status], never the values stored before), and,
    one flash write having gone through, the [loadConfig] of the next boot
    returns that object. *)
Theorem setup_persists_submission :
  forall (macAddress : MacAddress) (portal : AutoConnect) (edits : PortalEdits)
         (sensor_found p1 p2 : bool) (e : EEPROMClass),
    submitted portal = Some edits ->
    edits_fit (defaultTopic_of (moduleId_of macAddress)) edits ->
    p1 || p2 = true ->
    let r := setup macAddress portal sensor_found p1 p2 e in
    config_of_image (mqttConfig r)
    = Some (submitted_config (defaultTopic_of (moduleId_of macAddress)) edits)
    /\ fst (loadConfig zero_config (EEPROM r)) = (true, mqttConfig r).
Proof.
  intros mac portal edits sensor_found p1 p2 e Hsub Hfit Hp r. subst r.
  unfold setup. rewrite (loadConfig_eq zero_config e eq_refl).
  pose proof (loaded_image_length e) as Hlen.
  destruct (if Byte.eqb (flash e 0%nat) STORAGE_TEST_VALUE
            then (true, map (flash e) (seq MQTT_CONFIG_STORAGE_ADDRESS sizeof_MQTT_CONFIG))
            else (false, zero_config)) as [loaded image].
  cbn [snd] in Hlen. rewrite Hsub.
  destruct (copy_parameters_spec _ edits image Hlen Hfit) as (Hlen' & Hcfg).
  set (image' := copy_parameters _ edits image) in *.
  assert (Hload : forall e0,
             fst (loadConfig zero_config (saveConfig p1 p2 image' e0))
             = (true, image')).
  { intros e0. apply loadConfig_after_saveConfig; [exact Hlen'|reflexivity|exact Hp]. }
  destruct (res portal); cbn [negb];
    [destruct sensor_found; cbn [negb]|];
    cbn [mqttConfig EEPROM];
    (split; [exact Hcfg | apply Hload]).
Qed.

Lemma edits_demo_fit :
  edits_fit (defaultTopic_of (moduleId_of mac_demo)) edits_demo.
Proof.
  repeat split; try (vm_compute; lia);
    intros Hin; vm_compute in Hin;
    repeat (destruct Hin as [Hin|Hin]; [discriminate|]); exact Hin.
Qed.

Lemma setup_persists_submission_witness :
  submitted {| res := false; submitted := Some edits_demo |} = Some edits_demo
  /\ edits_fit (defaultTopic_of (moduleId_of mac_demo)) edits_demo
  /\ false || true = true
  /\ config_of_image
       (mqttConfig
          (setup mac_demo {| res := false; submitted := Some edits_demo |}
             true false true erased_eeprom))
     = Some (submitted_config (defaultTopic_of (moduleId_of mac_demo)) edits_demo)
  /\ fst (loadConfig zero_config
            (EEPROM
               (setup mac_demo {| res := false; submitted := Some edits_demo |}
                  true false true erased_eeprom)))
     = (true,
        mqttConfig
          (setup mac_demo {| res := false; submitted := Some edits_demo |}
             true false true erased_eeprom)).
Proof.
  split; [reflexivity|]. split; [exact edits_demo_fit|]. split; [reflexivity|].
  apply (setup_persists_submission mac_demo
           {| res := false; submitted := Some edits_demo |} edits_demo
           true false true erased_eeprom);
    [reflexivity | exact edits_demo_fit | reflexivity].
Defined.

(** X17: without a portal submission [setup()] writes nothing to the
    flash.  The object then holds the stored configuration if the flash
    begins with the test value, and otherwise stays zeroed, in which case
    the WiFi settings are reset before the connection is attempted. *)
Theorem setup_without_submission :
  forall (macAddress : MacAddress) (portal : AutoConnect)
         (sensor_found p1 p2 : bool) (e : EEPROMClass),
    submitted portal = None ->
    let r := setup macAddress portal sensor_found p1 p2 e in
    flash (EEPROM r) = flash e
    /\ mqttConfig r
       = (if Byte.eqb (flash e 0%nat) STORAGE_TEST_VALUE
          then map (flash e) (seq MQTT_CONFIG_STORAGE_ADDRESS sizeof_MQTT_CONFIG)
          else zero_config)
    /\ (In ResetSettings (actions r) <-> flash e 0%nat <> STORAGE_TEST_VALUE).
Proof.
  intros mac portal sensor_found p1 p2 e Hsub r. subst r.
  unfold setup. rewrite (loadConfig_eq zero_config e eq_refl), Hsub.
  destruct (Byte.eqb (flash e 0%nat) STORAGE_TEST_VALUE) eqn:E;
    (destruct (res portal); cbn [negb];
     [destruct sensor_found; cbn [negb]|]);
    cbn [mqttConfig EEPROM actions flash];
    (split; [reflexivity|]); (split; [reflexivity|]);
    (split;
     [ intros Hin; cbn in Hin;
       repeat (destruct Hin as [Hin|Hin]; [try discriminate|]);
       try contradiction;
       intros Hmark; rewrite Hmark in E; revert E; vm_compute; discriminate
     | intros Hmark ]);
    try (cbn; tauto);
    apply byte_eqb_eq in E; contradiction.
Qed.

Lemma setup_without_submission_witness :
  submitted {| res := true; submitted := None |} = None
  /\ flash (EEPROM (setup mac_demo {| res := true; submitted := None |}
                      true true true erased_eeprom))
     = flash erased_eeprom
  /\ mqttConfig (setup mac_demo {| res := true; submitted := None |}
                   true true true erased_eeprom)
     = zero_config
  /\ In ResetSettings
       (actions (setup mac_demo {| res := true; submitted := None |}
                   true true true erased_eeprom)).
Proof.
  split; [reflexivity|].
  destruct (setup_without_submission mac_demo {| res := true; submitted := None |}
              true true true erased_eeprom eq_refl)
    as (Hflash & Hcfg & Hreset).
  split; [exact Hflash|].
  split; [exact Hcfg|]. apply Hreset. discriminate.
Defined.



(** ** The throttle and the clock *)

Lemma spaced_after (d a : Z) (pre rest : list Z) :
  spaced d (pre ++ a :: rest) -> Forall (fun b => d < b - a) rest.
Proof.
  unfold spaced. induction pre as [|p pre IH]; cbn [app]; intros H.
  - inversion H; assumption.
  - apply IH. inversion H; assumption.
Qed.

(** X19: the clock value of a call is the one it reads at its start (line
    355).  While every such value lies between 0 and
    [Long.MAX - MQTT_PUBLISH_HARD_INTERVAL], the clock values of any two
    publishing calls of a run are more than 3000 ms apart, and at the end of
    the run the soft deadline lies at least 3000 ms after the clock value of
    every publishing call so far.  Nothing is said of the instants at which
    the messages leave the node. *)
Theorem publish_clock_values_apart :
  forall (cfg : MQTT_CONFIG) (ticks : list Tick) (st : State),
    Forall in_range ticks ->
    run cfg ticks boot = Some st ->
    (forall before t1 between t2 after,
        publish_times (trace st) = before ++ t1 :: between ++ t2 :: after ->
        MQTT_PUBLISH_SOFT_INTERVAL < t2 - t1)
    /\ (forall tp, In tp (publish_times (trace st)) ->
                   tp + MQTT_PUBLISH_SOFT_INTERVAL <= mqttPublishSoftDeadline st).
Proof.
  intros cfg ticks st HR Hrun.
  destruct (throttle_invariant cfg ticks st HR Hrun) as [Hsp Hle].
  split.
  - intros before t1 between t2 after Heq. rewrite Heq in Hsp.
    apply spaced_after in Hsp. rewrite Forall_forall in Hsp.
    apply Hsp. apply in_or_app. right. left. reflexivity.
  - intros tp Hin. rewrite Forall_forall in Hle. apply Hle. exact Hin.
Qed.

Lemma publish_clock_values_apart_witness :
  Forall in_range
    [tick_at 5000 all_low (Some (22, 45)); tick_at 8001 all_high (Some (22, 45));
     tick_at 11002 all_low None]
  /\ exists st,
       run cfg_tilt
         [tick_at 5000 all_low (Some (22, 45));
          tick_at 8001 all_high (Some (22, 45));
          tick_at 11002 all_low None] boot = Some st
       /\ publish_times (trace st) = [] ++ 5000 :: [8001] ++ 11002 :: []
       /\ MQTT_PUBLISH_SOFT_INTERVAL < 11002 - 5000.
Proof.
  assert (HR : Forall in_range
                 [tick_at 5000 all_low (Some (22, 45));
                  tick_at 8001 all_high (Some (22, 45));
                  tick_at 11002 all_low None]).
  { repeat constructor; vm_compute; discriminate. }
  split; [exact HR|].
  eexists. split; [vm_compute; reflexivity|].
  match goal with
  | |- publish_times (trace ?s) = _ /\ _ => set (s0 := s)
  end.
  assert (Ht : publish_times (trace s0) = [] ++ 5000 :: [8001] ++ 11002 :: [])
    by (vm_compute; reflexivity).
  split; [exact Ht|].
  assert (Hrun : run cfg_tilt
                   [tick_at 5000 all_low (Some (22, 45));
                    tick_at 8001 all_high (Some (22, 45));
                    tick_at 11002 all_low None] boot = Some s0)
    by (vm_compute; reflexivity).
  apply (proj1 (publish_clock_values_apart cfg_tilt _ s0 HR Hrun) [] 5000 [8001] 11002 []).
  exact Ht.
Defined.

(** X20: a call of [loop()] that samples during the last 3000 ms before
    the clock reaches [Long.MAX] computes a soft deadline that has wrapped
    round to a negative number.  The throttle is then open: every later call
    whose clock value is not below that of this call samples again, however
    soon it comes. *)
Theorem throttle_open_after_wrap :
  forall (cfg : MQTT_CONFIG) (t t2 : Tick) (st st' : State),
    Long.MAX - MQTT_PUBLISH_SOFT_INTERVAL < millis t <= Long.MAX ->
    mqttPublishSoftDeadline st < millis t ->
    loop cfg t st = Some st' ->
    millis t <= now_of t2 ->
    mqttPublishSoftDeadline st' < 0
    /\ mqttPublishSoftDeadline st' < now_of t2
    /\ (forall st2, loop cfg t2 st' = Some st2 ->
                    CURRENT st2 = read_sensors cfg t2 (CURRENT st')).
Proof.
  intros cfg t t2 st st' Hlate Hgate Hl Hnext.
  destruct (soft_deadline_wraps cfg t st st' Hlate Hgate Hl) as [Hval Hlt].
  assert (Hneg : mqttPublishSoftDeadline st' < 0).
  { rewrite Hval. unfold MQTT_PUBLISH_SOFT_INTERVAL, Long.MAX in *.
    change (2 ^ 32) with 4294967296. change (2 ^ 31) with 2147483648 in Hlate. lia. }
  split; [exact Hneg|]. split; [lia|].
  intros st2 Hl2.
  destruct (loop_events _ _ _ _ Hl2) as (s1 & evs & _ & -> & Hs & _ & _).
  destruct Hs as (Hsoft & _ & Hc & _ & _).
  rewrite scheduler_current, Hsoft, Hc.
  replace (mqttPublishSoftDeadline st' <? now_of t2) with true; [reflexivity|].
  symmetry. apply Z.ltb_lt. lia.
Qed.

Lemma throttle_open_after_wrap_witness :
  exists st st',
    run cfg_plain [tick_at 5000 all_low (Some (22, 45))] boot = Some st
    /\ Long.MAX - MQTT_PUBLISH_SOFT_INTERVAL
       < millis (tick_at 2147482000 all_low (Some (22, 45))) <= Long.MAX
    /\ mqttPublishSoftDeadline st
       < millis (tick_at 2147482000 all_low (Some (22, 45)))
    /\ loop cfg_plain (tick_at 2147482000 all_low (Some (22, 45))) st = Some st'
    /\ millis (tick_at 2147482000 all_low (Some (22, 45)))
       <= now_of (tick_at 2147482001 all_low (Some (22, 45)))
    /\ mqttPublishSoftDeadline st' < 0
    /\ mqttPublishSoftDeadline st'
       < now_of (tick_at 2147482001 all_low (Some (22, 45))).
Proof.
  eexists. eexists. split; [vm_compute; reflexivity|].
  assert (Hr : Long.MAX - MQTT_PUBLISH_SOFT_INTERVAL
               < millis (tick_at 2147482000 all_low (Some (22, 45))) <= Long.MAX)
    by (vm_compute; split; [reflexivity|discriminate]).
  split; [exact Hr|].
  match goal with
  | |- mqttPublishSoftDeadline ?s < _ /\ _ => set (s0 := s)
  end.
  assert (Hg : mqttPublishSoftDeadline s0
               < millis (tick_at 2147482000 all_low (Some (22, 45))))
    by (vm_compute; reflexivity).
  split; [exact Hg|]. split; [vm_compute; reflexivity|].
  match goal with
  | |- _ /\ mqttPublishSoftDeadline ?s < 0 /\ _ => set (s1 := s)
  end.
  assert (Hl : loop cfg_plain (tick_at 2147482000 all_low (Some (22, 45))) s0
               = Some s1) by (vm_compute; reflexivity).
  assert (Hn : millis (tick_at 2147482000 all_low (Some (22, 45)))
               <= now_of (tick_at 2147482001 all_low (Some (22, 45))))
    by (vm_compute; discriminate).
  split; [exact Hn|].
  pose proof (throttle_open_after_wrap cfg_plain
                (tick_at 2147482000 all_low (Some (22, 45)))
                (tick_at 2147482001 all_low (Some (22, 45))) s0 s1 Hr Hg Hl Hn)
    as (H1 & H2 & _).
  split; assumption.
Defined.

(** ** From [setup()] to the first publish *)

Lemma first_call_due (cfg : MQTT_CONFIG) (t : Tick) :
  0 < now_of t -> due cfg t boot = true.
Proof.
  intros Hnow. unfold due. cbn [boot mqttPublishSoftDeadline mqttPublishHardDeadline].
  apply Z.ltb_lt in Hnow. rewrite Hnow, orb_true_r. reflexivity.
Qed.

(** X21: a node whose portal submission fits and whose [setup()] goes on
    to [loop()] runs with the configuration submitted: the first call of
    [loop()] whose clock value has reached the 4000 ms that [setup()] has
    waited, and whose connect attempts end in a success, publishes to the
    topic submitted, or to [<moduleId>/status] when the topic field was
    left untouched. *)
Theorem first_publish_after_setup :
  forall (macAddress : MacAddress) (portal : AutoConnect) (edits : PortalEdits)
         (sensor_found p1 p2 : bool) (e : EEPROMClass) (t : Tick),
    let r := setup macAddress portal sensor_found p1 p2 e in
    submitted portal = Some edits ->
    edits_fit (defaultTopic_of (moduleId_of macAddress)) edits ->
    outcome r = Ready ->
    total_wait (actions r) <= now_of t ->
    In true (connect_results t) ->
    exists cfg st' evs payload ok,
      config_of_image (mqttConfig r) = Some cfg
      /\ loop cfg t boot = Some st'
      /\ trace st'
         = evs ++ [MqttPublish (now_of t)
                     (getValue (edit_topic edits)
                        (defaultTopic_of (moduleId_of macAddress)))
                     payload ok]
      /\ existsb is_publish evs = false.
Proof.
  intros mac portal edits sensor_found p1 p2 e t r Hsub Hfit Hready Hclock Hconn.
  assert (Hcfg : config_of_image (mqttConfig r)
                 = Some (submitted_config (defaultTopic_of (moduleId_of mac)) edits)
                 /\ total_wait (actions r) = 4000).
  { revert Hready. clear Hclock. subst r.
    unfold setup. rewrite (loadConfig_eq zero_config e eq_refl).
    pose proof (loaded_image_length e) as Hlen.
    destruct (if Byte.eqb (flash e 0%nat) STORAGE_TEST_VALUE
              then (true, map (flash e) (seq MQTT_CONFIG_STORAGE_ADDRESS sizeof_MQTT_CONFIG))
              else (false, zero_config)) as [loaded image].
    cbn [snd] in Hlen. rewrite Hsub.
    destruct (copy_parameters_spec _ edits image Hlen Hfit) as (_ & Hdec).
    destruct (res portal); cbn [negb];
      [destruct sensor_found; cbn [negb]|];
      cbn [outcome]; intros Hready; try discriminate.
    cbn [mqttConfig actions]. split; [exact Hdec|].
    destruct loaded; reflexivity. }
  destruct Hcfg as [Hcfg Hwait].
  set (cfg := submitted_config (defaultTopic_of (moduleId_of mac)) edits) in *.
  assert (Hnow : 0 < now_of t) by lia.
  destruct (service_connection_returns t boot (or_intror Hconn)) as [st1 Hsvc].
  assert (Hloop : loop cfg t boot = Some (scheduler cfg t st1)).
  { unfold loop. rewrite Hsvc. reflexivity. }
  destruct (loop_events _ _ _ _ Hloop) as (st1' & evs & Hsvc' & _ & _ & Hno & Hev).
  rewrite (first_call_due cfg t Hnow) in Hev.
  exists cfg, (scheduler cfg t st1), evs.
  eexists. eexists.
  split; [exact Hcfg|]. split; [exact Hloop|]. split; [|exact Hno].
  unfold events_since in Hev. cbn [boot trace List.length skipn] in Hev.
  exact Hev.
Qed.

Lemma first_publish_after_setup_witness :
  outcome (setup mac_demo {| res := true; submitted := Some edits_demo |}
             true true true erased_eeprom) = Ready
  /\ total_wait
       (actions (setup mac_demo {| res := true; submitted := Some edits_demo |}
                   true true true erased_eeprom))
     <= now_of (tick_at 4000 all_low (Some (22, 45)))
  /\ exists cfg st' evs payload ok,
       config_of_image
         (mqttConfig (setup mac_demo {| res := true; submitted := Some edits_demo |}
                        true true true erased_eeprom)) = Some cfg
       /\ loop cfg (tick_at 4000 all_low (Some (22, 45))) boot = Some st'
       /\ trace st'
          = evs ++ [MqttPublish (now_of (tick_at 4000 all_low (Some (22, 45))))
                      (getValue (edit_topic edits_demo)
                         (defaultTopic_of (moduleId_of mac_demo)))
                      payload ok]
       /\ existsb is_publish evs = false.
Proof.
  assert (Hready : outcome (setup mac_demo
                              {| res := true; submitted := Some edits_demo |}
                              true true true erased_eeprom) = Ready)
    by reflexivity.
  assert (Hclock : total_wait
                     (actions (setup mac_demo
                                 {| res := true; submitted := Some edits_demo |}
                                 true true true erased_eeprom))
                   <= now_of (tick_at 4000 all_low (Some (22, 45))))
    by (vm_compute; discriminate).
  split; [exact Hready|]. split; [exact Hclock|].
  apply (first_publish_after_setup mac_demo
           {| res := true; submitted := Some edits_demo |} edits_demo
           true true true erased_eeprom (tick_at 4000 all_low (Some (22, 45)))
           eq_refl edits_demo_fit Hready Hclock).
  simpl. auto.
Defined.
